(** * w2v_did: dialect identification by fine-tuning wav2vec 2.0

    A shallow embedding of the three Python sources of the repository

      - [klaam-modified/run_classifier.py]   (module [RunClassifier])
      - [com_voice_speech_corpus5/com_voice_speech_corpus5.py] (module [Corpus])
      - [DidMain.py]                         (module [DidMain])

    Python values that the scripts only pass around are kept symbolic
    (models, optimizers, audio arrays); control flow, list and dictionary
    manipulation and raised exceptions are modelled explicitly. *)

From Stdlib Require Import ZArith QArith Ascii String DecimalString Permutation.
From stdpp Require Import base option list strings gmap.

Open Scope Z_scope.

(** ** Python preliminaries shared by the three scripts *)

Module Py.

(** What a [raise SystemExit(arg)] or [exit(arg)] carries. *)
Inductive exit_arg :=
  | ExitCode (status : Z)
  | ExitMsg (msg : string).

(** The exceptions the modelled code can raise. *)
Inductive exn :=
  | IndexError
  | ValueError
  | TypeError
  | ZeroDivisionError
  | AttributeError
  | KeyError (key : string)
  | UnboundLocalError (var : string)
  | NotADirectoryError
  | OSError
  | SystemExit (arg : exit_arg).

(** A computation either returns a value or raises. *)
Inductive result (A : Type) :=
  | Ok (a : A)
  | Raise (e : exn).
Arguments Ok {A} a.
Arguments Raise {A} e.

#[global] Instance result_ret : MRet result := fun A a => Ok a.
#[global] Instance result_bind : MBind result := fun A B f m =>
  match m with
  | Ok a => f a
  | Raise e => Raise e
  end.

Definition is_ok {A} (r : result A) : bool :=
  match r with Ok _ => true | Raise _ => false end.

(** Audio samples are floating point numbers that the scripts never
    compute with; rationals stand for them. *)
Definition sample := Q.

(** Dynamically typed values stored in dataset records. *)
Inductive pyval :=
  | PyNone
  | PyInt (z : Z)
  | PyStr (s : string)
  | PyArr (a : list sample).

(** [s.endswith(suffix)]: some tail of [s] is [suffix]. *)
Fixpoint endswith (s suffix : string) : bool :=
  String.eqb s suffix ||
  match s with
  | EmptyString => false
  | String _ s' => endswith s' suffix
  end.

(** [s.split(sep)] for a one-character separator. *)
Fixpoint split (sep : ascii) (s : string) : list string :=
  match s with
  | EmptyString => [EmptyString]
  | String c s' =>
      if Ascii.eqb c sep then EmptyString :: split sep s'
      else match split sep s' with
           | piece :: pieces => String c piece :: pieces
           | [] => [String c EmptyString]
           end
  end.

(** [sep in s] *)
Fixpoint has_char (sep : ascii) (s : string) : bool :=
  match s with
  | EmptyString => false
  | String c s' => Ascii.eqb c sep || has_char sep s'
  end.

(** [str(i)] for a non-negative integer. *)
Definition str (i : nat) : string := NilEmpty.string_of_uint (Nat.to_uint i).

(** [l[i] = v] on a Python list: indices in [-len, len) are accepted,
    negative ones counting from the end; anything else is an IndexError. *)
Definition list_setitem {A} (l : list A) (i : Z) (v : A) : result (list A) :=
  let n := Z.of_nat (length l) in
  if bool_decide (0 ≤ i < n) then Ok (<[Z.to_nat i := v]> l)
  else if bool_decide (- n ≤ i < 0) then Ok (<[Z.to_nat (n + i) := v]> l)
  else Raise IndexError.

(** [[x] * n]: an empty list when [n] is not positive. *)
Definition list_repeat {A} (x : A) (n : Z) : list A := replicate (Z.to_nat n) x.

(** [a[:k]] on a sequence. *)
Definition slice_upto {A} (a : list A) (k : Z) : list A :=
  if bool_decide (0 ≤ k) then take (Z.to_nat k) a
  else take (length a - Z.to_nat (- k)) a.

(** A list comprehension whose body may raise: the first exception met,
    in iteration order, is the one that propagates. *)
Fixpoint comprehension {A B} (f : A → result B) (l : list A) : result (list B) :=
  match l with
  | [] => Ok []
  | x :: l' => y ← f x; ys ← comprehension f l'; Ok (y :: ys)
  end.

(** [batch[key]] on a dictionary. *)
Definition getitem (d : gmap string pyval) (key : string) : result pyval :=
  match d !! key with
  | Some v => Ok v
  | None => Raise (KeyError key)
  end.

(** Receiver of a [str] method call: any other value lacks the method. *)
Definition as_str (v : pyval) : result string :=
  match v with
  | PyStr s => Ok s
  | _ => Raise AttributeError
  end.

(** [start, stop = pieces]: unpacking into exactly two targets. *)
Definition unpack2 {A} (pieces : list A) : result (A * A) :=
  match pieces with
  | [a; b] => Ok (a, b)
  | _ => Raise ValueError
  end.

(** [s.count(sep)] for a one-character [sep]. *)
Fixpoint count_char (sep : ascii) (s : string) : nat :=
  match s with
  | EmptyString => 0%nat
  | String c s' => ((if Ascii.eqb c sep then 1 else 0) + count_char sep s')%nat
  end.

(** Values are compared as Python compares them when it builds a [set]. *)
#[global] Instance Q_eq_dec : EqDecision Q.
Proof. solve_decision. Defined.

#[global] Instance pyval_eq_dec : EqDecision pyval.
Proof. solve_decision. Defined.

(** A missing value reads as None. *)
#[global] Instance pyval_inhabited : Inhabited pyval := populate PyNone.

End Py.
Import Py.

(** ** The audio libraries the scripts call into *)

Module Audio.

(** [soundfile.read(file, start=, stop=)] returns the frames read and the
    file's sample rate; [torchaudio.load(file)] returns a channels-by-frames
    tensor and the sample rate; [librosa.resample(y, orig_sr, target_sr)]
    returns the resampled signal.  The scripts are written against these
    three entry points, whatever they do. *)
Record Libs := {
  sf_read : pyval → pyval → pyval → result (list sample * Z);
  torchaudio_load : string → result (list (list sample) * Z);
  librosa_resample : list sample → Z → Z → result (list sample)
}.

(** A reading of [soundfile.read] over a table of audio files, used to run
    the scripts on concrete inputs.  As in the library, [start] and [stop]
    are frame indices interpreted like the bounds of a slice of the file's
    frames: integers (negative ones counting from the end) or None; any
    other value is rejected when the bounds are resolved. *)
Definition slice_bound (n : Z) (default : Z) (v : pyval) : result Z :=
  match v with
  | PyNone => Ok default
  | PyInt i => Ok (if bool_decide (i < 0) then Z.max (i + n) 0 else Z.min i n)
  | _ => Raise TypeError
  end.

Definition soundfile_read (disk : gmap string (list sample * Z))
    (file start stop : pyval) : result (list sample * Z) :=
  match file with
  | PyStr name =>
      match disk !! name with
      | None => Raise OSError
      | Some (frames, rate) =>
          let n := Z.of_nat (length frames) in
          a ← slice_bound n 0 start;
          b ← slice_bound n n stop;
          let b := if bool_decide (b < a) then a else b in
          Ok (take (Z.to_nat (b - a)) (drop (Z.to_nat a) frames), rate)
      end
  | _ => Raise TypeError
  end.

End Audio.

(** ** klaam-modified/run_classifier.py *)

Module RunClassifier.

(** *** The data collator *)

(** [self.processor]: the collator only ever calls its [pad] method, with
    the batch of input values and the keyword arguments [padding],
    [max_length] and [pad_to_multiple_of] ([return_tensors] is always
    "pt"). *)
Record Processor := {
  pad : list (list sample) → bool → option Z → option Z →
        result (list (list sample))
}.

(** The dataclass fields; [number_of_labels] is an integer wherever the
    collator is built. *)
Record DataCollatorCTCWithPadding := {
  processor : Processor;
  padding : bool;
  max_length : option Z;
  max_length_labels : option Z;
  pad_to_multiple_of : option Z;
  pad_to_multiple_of_labels : option Z;
  number_of_labels : Z
}.

(** One input feature: [{"input_values": ..., "labels": ...}], the label
    being given by the integer [int(feature["labels"])]. *)
Record feature := {
  input_values : list sample;
  labels : Z
}.

(** The returned batch: the padded ["input_values"] tensor, row by row,
    and the ["labels"] tensor. *)
Record batch := {
  batch_input_values : list (list sample);
  batch_labels : list (list Z)
}.

(** The local function [onehot] of [__call__]. *)
Definition onehot (self : DataCollatorCTCWithPadding) (lbl : Z) : result (list Z) :=
  let onehot := list_repeat 0 (number_of_labels self) in
  list_setitem onehot lbl 1.

Definition __call__ (self : DataCollatorCTCWithPadding) (features : list feature)
  : result batch :=
  let input_features := input_values <$> features in
  output_features ← comprehension (fun f => onehot self (labels f)) features;
  padded ← pad (processor self) input_features true
              (max_length self) (pad_to_multiple_of self);
  Ok {| batch_input_values := padded; batch_labels := output_features |}.

(** Modelled from the spec: [CustomWav2Vec2Processor.pad] lives in
    processors.py, which is not among the sources.  The spec describes
    collation as "packing a batch of variable-length audio samples into a
    fixed-shape tensor via padding", and the collator's docstring fixes the
    strategy used here: with [padding=True] every sequence is padded (on
    the right, with the feature extractor's padding value 0.0) to the
    longest sequence of the batch, that length being first rounded up to a
    multiple of [pad_to_multiple_of] when it is set.  [max_length] plays no
    role under this strategy.  The rounding computes a remainder, so a zero
    multiple raises; turning a ragged result into a tensor fails. *)
Definition padding_value : sample := 0%Q.

Definition pad_target (longest : Z) (multiple : option Z) : result Z :=
  match multiple with
  | None => Ok longest
  | Some p =>
      if bool_decide (p = 0) then Raise ZeroDivisionError
      else if bool_decide (longest `mod` p = 0) then Ok longest
      else Ok ((longest `div` p + 1) * p)
  end.

Definition pad_row (target : nat) (row : list sample) : list sample :=
  if bool_decide (length row < target)%nat
  then row ++ replicate (target - length row) padding_value
  else row.

Definition rectangular (rows : list (list sample)) : bool :=
  match rows with
  | [] => true
  | row :: rows' => forallb (fun r => Nat.eqb (length r) (length row)) rows'
  end.

Definition longest_pad (rows : list (list sample)) (padding : bool)
    (max_length multiple : option Z) : result (list (list sample)) :=
  match rows with
  | [] => Ok []
  | _ =>
      let longest := Z.of_nat (max_list (length <$> rows)) in
      target ← pad_target longest multiple;
      let padded := pad_row (Z.to_nat target) <$> rows in
      if rectangular padded then Ok padded else Raise ValueError
  end.

Definition CustomWav2Vec2Processor : Processor := {| pad := longest_pad |}.

(** A multiple to pad to is usable when it is unset or positive (the
    script passes [window_length * 16000]). *)
Definition multiple_ok (multiple : option Z) : Prop :=
  match multiple with
  | None => True
  | Some p => 0 < p
  end.

(** The one-hot vector of length [n] for class [k]: a 1 exactly at index
    [k] and 0 elsewhere. *)
Definition is_one_hot (n k : Z) (row : list Z) : Prop :=
  Z.of_nat (length row) = n ∧
  ∀ i : nat, (i < length row)%nat →
    row !! i = Some (if bool_decide (Z.of_nat i = k) then 1 else 0).

(** *** Preprocessing: reading the audio of a record *)

(** [speech_file_to_array_fn] is local to [main]; it closes over
    [data_args.window_length].  The two locals [speech_array] and
    [sampling_rate] are bound in the branches of the if/elif only.
    [store_speech] is its tail, from the call to [librosa.resample] on. *)
Definition store_speech (libs : Audio.Libs) (batch : gmap string pyval)
    (speech_array : list sample) (sampling_rate : Z) : result (gmap string pyval) :=
  let srate := 16000 in
  speech ← Audio.librosa_resample libs speech_array sampling_rate srate;
  let batch := <["speech" := PyArr speech]> batch in
  let batch := <["sampling_rate" := PyInt srate]> batch in
  parent ← getitem batch "label";
  Ok (<["parent" := parent]> batch).

(** [speech_array[0]] on the tensor loaded by torchaudio. *)
Definition first_channel (tensor : list (list sample)) : result (list sample) :=
  match tensor !! 0%nat with
  | Some channel => Ok channel
  | None => Raise IndexError
  end.

Definition speech_file_to_array_fn (libs : Audio.Libs) (window_length : Z)
    (batch : gmap string pyval) : result (gmap string pyval) :=
  let start := 0 in
  let stop := window_length in
  let srate := 16000 in
  file ← getitem batch "file";
  name ← as_str file;
  bound ←
    (if endswith name ".wav" then
       r ← Audio.sf_read libs file (PyInt (start * srate)) (PyInt (stop * srate));
       Ok (Some r)
     else if endswith name ".mp3" then
       '(tensor, sampling_rate) ← Audio.torchaudio_load libs name;
       channel ← first_channel tensor;
       Ok (Some (slice_upto channel (stop * srate), sampling_rate))
     else Ok None);
  '(speech_array, sampling_rate) ←
    match bound with
    | Some locals => Ok locals
    | None => Raise (UnboundLocalError "speech_array")
    end;
  store_speech libs batch speech_array sampling_rate.

(** *** [main]: arguments, checkpoint detection and the training call *)

Record ModelArguments := {
  model_name_or_path : string;
  freeze_feature_extractor : bool
}.

Record DataTrainingArguments := {
  window_length : Z;
  max_train_samples : option Z;
  max_val_samples : option Z
}.

Record TrainingArguments := {
  output_dir : string;
  do_train : bool;
  do_eval : bool;
  overwrite_output_dir : bool
}.

(** What one invocation of the script sees of the outside world. *)
Record World := {
  sys_argv : list string;
  abspath : string → string;
  parse_json_file :
    string → result (ModelArguments * DataTrainingArguments * TrainingArguments);
  isdir : string → bool;
  listdir : string → result (list string);
  get_last_checkpoint : string → option string;
  (** lines 137-292: logging, datasets, model, collator and trainer are set
      up; none of this reads or writes [last_checkpoint] *)
  build_trainer :
    ModelArguments → DataTrainingArguments → TrainingArguments → result unit
}.

(** The calls [main] makes on the trainer, in order. *)
Inductive trainer_call :=
  | Train (resume_from_checkpoint : option string)
  | SaveModel
  | LogMetrics (split : string)
  | SaveMetrics (split : string)
  | SaveState
  | Evaluate.

Definition parse_args (w : World)
  : result (ModelArguments * DataTrainingArguments * TrainingArguments) :=
  let argv := sys_argv w in
  if bool_decide (length argv = 2%nat) &&
     match argv !! 1%nat with
     | Some a => endswith a ".json"
     | None => false
     end
  then
    match argv !! 1%nat with
    | Some a => parse_json_file w (abspath w a)
    | None => Raise IndexError
    end
  else Raise (SystemExit (ExitCode 1)).

Definition detect_last_checkpoint (w : World) (training_args : TrainingArguments)
  : result (option string) :=
  let last_checkpoint := None in
  if isdir w (output_dir training_args) && do_train training_args
     && negb (overwrite_output_dir training_args)
  then
    let last_checkpoint := get_last_checkpoint w (output_dir training_args) in
    match last_checkpoint with
    | None =>
        entries ← listdir w (output_dir training_args);
        if bool_decide (0 < length entries)%nat then Raise ValueError
        else Ok last_checkpoint
    | Some _ => Ok last_checkpoint
    end
  else Ok last_checkpoint.

Definition training (w : World) (model_args : ModelArguments)
    (training_args : TrainingArguments) (last_checkpoint : option string)
  : list trainer_call :=
  if do_train training_args then
    let checkpoint :=
      match last_checkpoint with
      | Some c => Some c
      | None =>
          if isdir w (model_name_or_path model_args)
          then Some (model_name_or_path model_args)
          else None
      end in
    [Train checkpoint; SaveModel; LogMetrics "train"; SaveMetrics "train";
     SaveState]
  else [].

Definition evaluation (training_args : TrainingArguments) : list trainer_call :=
  if do_eval training_args
  then [Evaluate; LogMetrics "eval"; SaveMetrics "eval"]
  else [].

Definition main_body (w : World)
    (args : ModelArguments * DataTrainingArguments * TrainingArguments)
  : result (list trainer_call) :=
  let '(model_args, data_args, training_args) := args in
  last_checkpoint ← detect_last_checkpoint w training_args;
  _ ← build_trainer w model_args data_args training_args;
  Ok (training w model_args training_args last_checkpoint
        ++ evaluation training_args).

Definition main (w : World) : result (list trainer_call) :=
  args ← parse_args w;
  main_body w args.

(** The checkpoint handed to [trainer.train], read off the output
    directory and the model path. *)
Definition resume_point (w : World) (model_args : ModelArguments)
    (training_args : TrainingArguments) : option string :=
  let detected :=
    if isdir w (output_dir training_args) && negb (overwrite_output_dir training_args)
    then get_last_checkpoint w (output_dir training_args)
    else None in
  match detected with
  | Some c => Some c
  | None =>
      if isdir w (model_name_or_path model_args)
      then Some (model_name_or_path model_args)
      else None
  end.

(** *** [prepare_dataset], mapped over batches of preprocessed records *)

(** A batch as a batched [map] hands it over: one list per column, a row's
    value at each position.  [columns_of] lays out the rows written by
    [speech_file_to_array_fn]. *)
Record speech_columns := {
  col_speech : list pyval;
  col_sampling_rate : list pyval;
  col_parent : list pyval
}.

Definition columns_of (rows : list (gmap string pyval)) : speech_columns :=
  {| col_speech := (fun row => row !!! "speech") <$> rows;
     col_sampling_rate := (fun row => row !!! "sampling_rate") <$> rows;
     col_parent := (fun row => row !!! "parent") <$> rows |}.

Record prepared_columns := {
  kept : speech_columns;
  col_input_values : list (list sample);
  col_labels : list pyval
}.

(** An [assert] either fails or lets the rest of the body run. *)
Inductive checked (A : Type) :=
  | AssertionFailed
  | Passed (r : result A).
Arguments AssertionFailed {A}.
Arguments Passed {A} r.

(** [set(values)]: the values are hashed as they are added, and an array
    cannot be hashed. *)
Definition hashable (v : pyval) : bool :=
  match v with
  | PyArr _ => false
  | _ => true
  end.

Definition py_set (values : list pyval) : result (list pyval) :=
  if forallb hashable values then Ok (remove_dups values) else Raise TypeError.

(** [prepare_dataset] is local to [main]; [extract] stands for the call
    [processor(speech, sampling_rate=...).input_values].  [Passed r] is any
    outcome other than a failed assertion: the body went on as [r], or the
    asserted condition itself raised. *)
Definition prepare_dataset
    (extract : list pyval → pyval → result (list (list sample)))
    (batch : speech_columns) : checked prepared_columns :=
  match py_set (col_sampling_rate batch) with
  | Raise e => Passed (Raise e)
  | Ok rates =>
      if bool_decide (length rates = 1%nat) then
        Passed (
          rate ← match col_sampling_rate batch !! 0%nat with
                 | Some rate => Ok rate
                 | None => Raise IndexError
                 end;
          input_values ← extract (col_speech batch) rate;
          Ok {| kept := batch;
                col_input_values := input_values;
                col_labels := col_parent batch |})
      else AssertionFailed
  end.

(** *** [compute_metrics] *)

(** [a.argmax(-1)] on one row: the index of the first maximum; an empty
    row has none. *)
Fixpoint argmax_from {A} (ltb : A → A → bool) (best : A) (best_i i : nat)
    (row : list A) : nat :=
  match row with
  | [] => best_i
  | x :: row' =>
      if ltb best x then argmax_from ltb x i (S i) row'
      else argmax_from ltb best best_i (S i) row'
  end.

Definition argmax {A} (ltb : A → A → bool) (row : list A) : result nat :=
  match row with
  | [] => Raise ValueError
  | x :: row' => Ok (argmax_from ltb x 0%nat 1%nat row')
  end.

Definition Qltb (x y : Q) : bool := negb (Qle_bool y x).

Record EvalPrediction := {
  predictions : list (list sample);
  label_ids : list (list Z)
}.

(** The scoring and reporting functions [compute_metrics] calls, each on
    the decoded labels and predictions: sklearn's [accuracy_score],
    [f1_score] (macro average), [classification_report] (with the label
    indices and names read from the labels CSV) and [confusion_matrix], and
    the confusion matrix plot logged to wandb. *)
Record Scoring := {
  accuracy_score : list nat → list nat → result Q;
  f1_score : list nat → list nat → result Q;
  classification_report :
    list nat → list nat → list Z → list string → result string;
  confusion_matrix : list nat → list nat → result (list (list Z));
  log_confusion_matrix : list nat → list nat → list string → result unit
}.

Record Metrics := {
  metric_accuracy : Q;
  metric_f1_score : Q
}.

(** [compute_metrics] from the decoded labels on. *)
Definition score (sk : Scoring) (label_idx : list Z) (label_names : list string)
    (labels preds : list nat) : result Metrics :=
  acc ← accuracy_score sk labels preds;
  f1 ← f1_score sk labels preds;
  _ ← classification_report sk labels preds label_idx label_names;
  _ ← confusion_matrix sk labels preds;
  _ ← log_confusion_matrix sk labels preds label_names;
  Ok {| metric_accuracy := acc; metric_f1_score := f1 |}.

Definition compute_metrics (sk : Scoring) (label_idx : list Z)
    (label_names : list string) (pred : EvalPrediction) : result Metrics :=
  labels ← comprehension (argmax Z.ltb) (label_ids pred);
  preds ← comprehension (argmax Qltb) (predictions pred);
  score sk label_idx label_names labels preds.

End RunClassifier.

(** ** com_voice_speech_corpus5/com_voice_speech_corpus5.py *)

Module Corpus.

(** *** [map_to_array] *)

Definition map_to_array (libs : Audio.Libs) (batch : gmap string pyval)
  : result (gmap string pyval) :=
  segment ← getitem batch "segment";
  segment ← as_str segment;
  '(start, stop) ← unpack2 (split "_" segment);
  file ← getitem batch "file";
  '(speech_array, _) ← Audio.sf_read libs file (PyStr start) (PyStr stop);
  Ok (<["speech" := PyArr speech_array]> batch).

(** *** The random number generator behind [random.Random(seed).shuffle] *)

(** The interface of Python's [random.Random] that [shuffle] relies on:
    a generator is created from a seed, and [_randbelow(n)] draws an
    integer below [n], advancing the generator. *)
Class PyRandom := {
  rng : Type;
  Random : Z → rng;
  randbelow : rng → nat → nat * rng;
  randbelow_lt : ∀ g n, (0 < n)%nat → (fst (randbelow g n) < n)%nat
}.

(** [x[i], x[j] = x[j], x[i]] *)
Definition swap {A} (x : list A) (i j : nat) : result (list A) :=
  match x !! j, x !! i with
  | Some xj, Some xi => Ok (<[j := xi]> (<[i := xj]> x))
  | _, _ => Raise IndexError
  end.

(** The loop of [Random.shuffle]:
    [for i in reversed(range(1, len(x))): j = randbelow(i + 1); swap]. *)
Fixpoint shuffle_loop `{PyRandom} {A} (i : nat) (g : rng) (x : list A)
  : result (list A) :=
  match i with
  | O => Ok x
  | S i' =>
      let '(j, g') := randbelow g (i + 1) in
      x' ← swap x i j;
      shuffle_loop i' g' x'
  end.

Definition shuffle `{PyRandom} {A} (g : rng) (x : list A) : result (list A) :=
  shuffle_loop (length x - 1) g x.

(** *** The directory tree under [archive_path] *)

(** The tree found at [archive_path], for a run in which every directory
    walked can be listed: a directory lists entry names in some order, and
    each name resolves to the file or directory found at that path.  (A
    path that does not exist, or a directory that may not be read, makes
    [os.listdir] raise another OSError; such trees are not walked here.) *)
Inductive node :=
  | File
  | Dir (listing : list string) (child : string → node).

Definition os_listdir (n : node) : result (list string) :=
  match n with
  | Dir listing _ => Ok listing
  | File => Raise NotADirectoryError
  end.

Definition resolve (n : node) (name : string) : node :=
  match n with
  | Dir _ child => child name
  | File => File
  end.

Definition os_path_isdir (n : node) : bool :=
  match n with
  | Dir _ _ => true
  | File => false
  end.

(** One run of the builder: the tree it walks and the state in which the
    process-wide generator of the [random] module happens to be. *)
Record run `{PyRandom} := {
  tree : node;
  global_random : rng
}.

Record example := {
  file : string;
  label : string
}.

(** What a generator did: the items it yielded, in order, and how it
    ended (exhausted, or with an exception). *)
Record generated (A : Type) := {
  yielded : list A;
  finished : result unit
}.
Arguments yielded {A} g.
Arguments finished {A} g.

Definition wav_path (wav_dir c file : string) : string :=
  wav_dir +:+ "/" +:+ c +:+ "/" +:+ file.

(** The inner loop, over the first 4000 entries of one subdirectory. *)
Definition scan_files (wav_dir c : string) (files : list string)
    (acc : list string * list string) : list string * list string :=
  foldl (fun '(paths, labls) file =>
           if endswith file ".mp3"
           then (paths ++ [wav_path wav_dir c file], labls ++ [c])
           else (paths, labls))
        acc (take 4000 files).

(** The outer loop, over the entries of [wav_dir]. *)
Definition scan_dirs (wav_dir : string) (root : node) (entries : list string)
  : result (list string * list string) :=
  foldl (fun acc c =>
           acc ← acc;
           if os_path_isdir (resolve root c) then
             files ← os_listdir (resolve root c);
             Ok (scan_files wav_dir c files acc)
           else Ok acc)
        (Ok ([], [])) entries.

(** [paths, labls = zip( *data )]: transposing an empty list leaves nothing
    to unpack. *)
Definition unzip_star {A B} (data : list (A * B)) : result (list A * list B) :=
  match data with
  | [] => Raise ValueError
  | _ => Ok (data.*1, data.*2)
  end.

Definition collect_examples `{PyRandom} (r : run) (archive_path : string)
  : result (list (string * example)) :=
  let wav_dir := archive_path in
  entries ← os_listdir (tree r);
  '(paths, labls) ← scan_dirs wav_dir (tree r) entries;
  let data := zip paths labls in
  data ← shuffle (Random 4) data;
  '(paths, labls) ← unzip_star data;
  Ok ((fun i => (str i, {| file := paths !!! i; label := labls !!! i |}))
        <$> seq 0 (length paths)).

(** Everything that can raise happens before the first [yield]. *)
Definition _generate_examples `{PyRandom} (r : run) (archive_path : string)
  : generated (string * example) :=
  match collect_examples r archive_path with
  | Ok items => {| yielded := items; finished := Ok () |}
  | Raise e => {| yielded := []; finished := Raise e |}
  end.

(** The files the builder is meant to pick up, as (subdirectory, file name)
    pairs in listing order: entries ending in ".mp3" among the first 4000
    of each immediate subdirectory. *)
Definition selected_files (root : node) : list (string * string) :=
  match root with
  | File => []
  | Dir listing child =>
      c ← listing;
      match child c with
      | Dir files _ =>
          (fun f => (c, f)) <$> filter (fun f => endswith f ".mp3" = true) (take 4000 files)
      | File => []
      end
  end.

(** The (path, label) pair the loops record for a selected file. *)
Definition entry_of (wav_dir : string) (cf : string * string) : string * string :=
  (wav_path wav_dir cf.1 cf.2, cf.1).

Definition example_of (wav_dir : string) (cf : string * string) : example :=
  {| file := wav_path wav_dir cf.1 cf.2; label := cf.1 |}.

(** Two trees with the same directory contents as far as listings go:
    the same entries in the same order at the root, the same entries being
    directories, and these directories listing the same names in the same
    order. *)
Definition same_listing (t1 t2 : node) : Prop :=
  os_listdir t1 = os_listdir t2 ∧
  ∀ entries c, os_listdir t1 = Ok entries → c ∈ entries →
    os_path_isdir (resolve t1 c) = os_path_isdir (resolve t2 c) ∧
    os_listdir (resolve t1 c) = os_listdir (resolve t2 c).

(** [os.listdir(...)[:4000]] *)
Definition first_entries (n : node) : result (list string) :=
  files ← os_listdir n;
  Ok (take 4000 files).

(** Two trees that agree on the root listing, on which of its entries are
    directories, and on the first 4000 entries of each of these. *)
Definition same_first_entries (t1 t2 : node) : Prop :=
  os_listdir t1 = os_listdir t2 ∧
  ∀ entries c, os_listdir t1 = Ok entries → c ∈ entries →
    os_path_isdir (resolve t1 c) = os_path_isdir (resolve t2 c) ∧
    first_entries (resolve t1 c) = first_entries (resolve t2 c).

End Corpus.

(** ** DidMain.py *)

Module DidMain.

(** A JSON value, as [json.load] returns it. *)
#[local] Unset Elimination Schemes.
Inductive json :=
  | JNull
  | JBool (b : bool)
  | JInt (n : Z)
  | JFloat (x : Q)
  | JStr (s : string)
  | JList (items : list json)
  | JDict (items : gmap string json).
#[local] Set Elimination Schemes.

(** [wandb.config]: what the attribute [config.<name>] gives, a value or
    the exception wandb raises for that name. *)
Definition Config := string → result json.

(** [value[key]] with a string as key: a dict holds the key or raises
    KeyError; no other JSON value can be indexed by a string. *)
Definition subscript (value : json) (key : string) : result json :=
  match value with
  | JDict items =>
      match items !! key with
      | Some v => Ok v
      | None => Raise (KeyError key)
      end
  | _ => Raise TypeError
  end.

(** [config.<section>[key]] and [config.<section>[name][key]] *)
Definition read (config : Config) (section key : string) : result json :=
  table ← config section;
  subscript table key.

Definition read_entry (config : Config) (section name key : string)
  : result json :=
  table ← config section;
  entry ← subscript table name;
  subscript entry key.

(** [string + value] and [value + string]: only a string can be
    concatenated with a string. *)
Definition str_operand (value : json) : result string :=
  match value with
  | JStr s => Ok s
  | _ => Raise TypeError
  end.

(** [torch.cuda] as the script queries it. *)
Record Cuda := {
  is_available : bool;
  device_count : Z
}.

(** The objects the script builds are kept as terms: a constructor per
    class or function of the collaborating modules, applied to the
    arguments the script passes. *)
Inductive dataset :=
  | DidDataset (csv_path : string) (root : json).

Inductive loader :=
  | DataLoader (data : dataset) (batch_size shuffle : json) (kwargs : option json).

Inductive model :=
  | DidModel (model_path num_classes freeze_fairseq : json)
  | DataParallelModel (module : model).

Inductive optimizer :=
  | Adam (params_of : model) (lr weight_decay : json).

Inductive scheduler :=
  | StepLR (opt : optimizer) (step_size gamma : json).

Inductive criterion :=
  | nll_loss
  | DataParallelCriterion (module : criterion).

Record DidModelRunner := {
  runner_device : string;
  runner_model : model;
  runner_optimizer : optimizer;
  runner_scheduler : scheduler;
  runner_loss_function : criterion;
  runner_output_for_loss : json
}.

(** What the script's surroundings do: the command line; opening the
    configuration file and loading it; [wandb.init] on the loaded value,
    which gives [wandb.config]; whether [device == 'cuda'] holds of the
    [torch.device] made from a name; and, for each object the script
    builds, whether building it returns or raises ([construct_dataset]
    covers the [len] taken of the dataset on the next line, and
    [construct_optimizer] the call [model.parameters()]). *)
Record World := {
  sys_argv : list string;
  json_load : string → result json;
  wandb_init : json → result Config;
  device_eq_cuda : string → bool;
  construct_dataset : dataset → result unit;
  construct_model : model → result unit;
  construct_loader : loader → result unit;
  construct_optimizer : optimizer → result unit;
  construct_scheduler : scheduler → result unit;
  construct_criterion : criterion → result unit;
  construct_runner : DidModelRunner → result unit
}.

(** Lines 36-52: what is printed is read from the configuration, the
    values joined with [+] being strings and the others going through
    [str]. *)
Definition report (config : Config) : result unit :=
  v ← read config "data" "train_dataset"; _ ← str_operand v;
  v ← read config "data" "test_dataset"; _ ← str_operand v;
  _ ← read config "data" "batch_size";
  _ ← read config "data" "shuffle";
  v ← read config "model" "model_location"; _ ← str_operand v;
  _ ← read config "model" "num_classes";
  _ ← read config "model" "freeze_fairseq";
  _ ← read config "general" "num_workers";
  _ ← read config "general" "epochs";
  v ← read config "general" "optimizer"; _ ← str_operand v;
  v ← read config "general" "loss_function"; _ ← str_operand v;
  _ ← read config "general" "log_interval";
  _ ← read config "general" "model_save_interval";
  Ok ().

Definition device_name (cuda : Cuda) : string :=
  if is_available cuda then "cuda" else "cpu".

(** Lines 59-60 and 64-65. *)
Definition build_dataset (w : World) (config : Config) (key : string)
  : result dataset :=
  v ← read config "data" key;
  dir ← str_operand v;
  let csv_path := dir +:+ "metadata.csv" in
  root ← read config "data" key;
  let data := DidDataset csv_path root in
  _ ← construct_dataset w data;
  Ok data.

(** Lines 79-82 and 83-86. *)
Definition build_loader (w : World) (config : Config) (data : dataset)
    (kwargs : option json) : result loader :=
  batch_size ← read config "data" "batch_size";
  shuffle ← read config "data" "shuffle";
  let loader := DataLoader data batch_size shuffle kwargs in
  _ ← construct_loader w loader;
  Ok loader.

(** Lines 36-86: the configuration is reported, the two datasets, the
    model (wrapped on several devices) and the two loaders are built. *)
Definition setup (w : World) (cuda : Cuda) (config : Config) : result model :=
  _ ← report config;
  kwargs ← (if device_eq_cuda w (device_name cuda)
            then num_workers ← read config "general" "num_workers";
                 Ok (Some num_workers)
            else Ok None);
  train_set ← build_dataset w config "train_dataset";
  test_set ← build_dataset w config "test_dataset";
  model_path ← read config "model" "model_location";
  num_classes ← read config "model" "num_classes";
  freeze_fairseq ← read config "model" "freeze_fairseq";
  let model := DidModel model_path num_classes freeze_fairseq in
  _ ← construct_model w model;
  model ← (if bool_decide (device_count cuda > 1)
           then _ ← construct_model w (DataParallelModel model);
                Ok (DataParallelModel model)
           else Ok model);
  _ ← build_loader w config train_set kwargs;
  _ ← build_loader w config test_set kwargs;
  Ok model.

(** Lines 88-97.  A name that is not a string differs from 'adam' and
    cannot be joined to the message. *)
Definition select_optimizer (w : World) (config : Config) (model : model)
  : result optimizer :=
  name ← read config "general" "optimizer";
  match name with
  | JStr name =>
      if String.eqb name "adam" then
        lr ← read_entry config "optimizers" name "lr";
        weight_decay ← read_entry config "optimizers" name "weight_decay";
        let optimizer := Adam model lr weight_decay in
        _ ← construct_optimizer w optimizer;
        Ok optimizer
      else Raise (SystemExit (ExitMsg ("you must specify optimizer for " +:+ name)))
  | _ => Raise TypeError
  end.

(** Lines 99-104. *)
Definition make_scheduler (w : World) (config : Config) (optimizer : optimizer)
  : result scheduler :=
  step_size ← read config "scheduler" "step_size";
  gamma ← read config "scheduler" "gamma";
  let scheduler := StepLR optimizer step_size gamma in
  _ ← construct_scheduler w scheduler;
  Ok scheduler.

(** Lines 106-126: the loss function is selected, wrapped on several
    devices, and the runner is built. *)
Definition make_runner (w : World) (cuda : Cuda) (config : Config)
    (model : model) (optimizer : optimizer) (scheduler : scheduler)
  : result DidModelRunner :=
  name ← read config "general" "loss_function";
  match name with
  | JStr name =>
      if String.eqb name "nllLoss" then
        let loss_function := nll_loss in
        loss_function ← (if bool_decide (device_count cuda > 1)
                         then _ ← construct_criterion w
                                    (DataParallelCriterion loss_function);
                              Ok (DataParallelCriterion loss_function)
                         else Ok loss_function);
        output_for_loss ← read_entry config "loss_functions" name "output";
        let runner := {| runner_device := device_name cuda;
                         runner_model := model;
                         runner_optimizer := optimizer;
                         runner_scheduler := scheduler;
                         runner_loss_function := loss_function;
                         runner_output_for_loss := output_for_loss |} in
        _ ← construct_runner w runner;
        Ok runner
      else Raise (SystemExit (ExitMsg
             ("you must specify loss_function for " +:+ name)))
  | _ => Raise TypeError
  end.

(** The script body from [wandb.config] to the construction of the
    runner. *)
Definition script (w : World) (cuda : Cuda) (config : Config)
  : result DidModelRunner :=
  model ← setup w cuda config;
  optimizer ← select_optimizer w config model;
  scheduler ← make_scheduler w config optimizer;
  make_runner w cuda config model optimizer scheduler.

(** Lines 16-34, then the script on [wandb.config]. *)
Definition main (w : World) (cuda : Cuda) : result DidModelRunner :=
  config_path ← match sys_argv w !! 1%nat with
                | Some path => Ok path
                | None => Raise IndexError
                end;
  did_config ← json_load w config_path;
  config ← wandb_init w did_config;
  script w cuda config.


Definition wrapped_model (m : model) : Prop := ∃ m', m = DataParallelModel m'.

Definition wrapped_criterion (c : criterion) : Prop :=
  ∃ c', c = DataParallelCriterion c'.

(** The model as constructed from the configuration, before any wrapping. *)
Definition plain_model (config : Config) : result model :=
  model_path ← read config "model" "model_location";
  num_classes ← read config "model" "num_classes";
  freeze_fairseq ← read config "model" "freeze_fairseq";
  Ok (DidModel model_path num_classes freeze_fairseq).

End DidMain.

(** ** Concrete inputs on which the embedding is run below *)

Module Inputs.
Import RunClassifier.

(** A collator for five classes that pads to multiples of four samples. *)
Definition collator5 : DataCollatorCTCWithPadding :=
  {| processor := CustomWav2Vec2Processor;
     padding := true;
     max_length := Some 4;
     max_length_labels := None;
     pad_to_multiple_of := Some 4;
     pad_to_multiple_of_labels := None;
     number_of_labels := 5 |}.

(** The collator the script builds for a window of length 0:
    [window_length * 16000] is then 0. *)
Definition collator_window_0 : DataCollatorCTCWithPadding :=
  {| processor := CustomWav2Vec2Processor;
     padding := true;
     max_length := Some 0;
     max_length_labels := None;
     pad_to_multiple_of := Some 0;
     pad_to_multiple_of_labels := None;
     number_of_labels := 5 |}.

Definition two_features : list feature :=
  [ {| input_values := [1 # 2; 1 # 4; 1 # 8]%Q; labels := 2 |};
    {| input_values := [3 # 4; 1 # 1; 1 # 3; 1 # 5; 1 # 7]%Q; labels := 0 |} ].

Definition feature_label_5 : feature :=
  {| input_values := [1 # 2]%Q; labels := 5 |}.

(** Two audio files of six frames each, at 16 kHz. *)
Definition six_frames : list sample := [1 # 1; 2 # 1; 3 # 1; 4 # 1; 5 # 1; 6 # 1]%Q.

Definition disk : gmap string (list sample * Z) :=
  <["a.wav" := (six_frames, 16000)]> (<["b.mp3" := (six_frames, 16000)]> ∅).

(** Audio libraries over [disk]: torchaudio decodes a file to one channel,
    and resampling to the rate a signal already has leaves it as it is. *)
Definition libs : Audio.Libs :=
  {| Audio.sf_read := Audio.soundfile_read disk;
     Audio.torchaudio_load := fun name =>
       match disk !! name with
       | Some (frames, rate) => Ok ([frames], rate)
       | None => Raise OSError
       end;
     Audio.librosa_resample := fun y orig_sr target_sr =>
       if bool_decide (orig_sr = target_sr) then Ok y else Raise ValueError |}.

Definition wav_record : gmap string pyval :=
  <["file" := PyStr "a.wav"]> (<["label" := PyInt 3]> ∅).

Definition mp3_record : gmap string pyval :=
  <["file" := PyStr "b.mp3"]> (<["label" := PyInt 1]> ∅).

Definition flac_record : gmap string pyval :=
  <["file" := PyStr "c.flac"]> (<["label" := PyInt 1]> ∅).

Definition segment_record : gmap string pyval :=
  <["file" := PyStr "a.wav"]> (<["segment" := PyStr "1_4"]> ∅).

(** A world in which the output directory holds a checkpoint of an
    earlier training run. *)
Definition some_args
  : ModelArguments * DataTrainingArguments * TrainingArguments :=
  ({| model_name_or_path := "facebook/wav2vec2-large-xlsr-53";
      freeze_feature_extractor := true |},
   {| window_length := 10; max_train_samples := None; max_val_samples := None |},
   {| output_dir := "out"; do_train := true; do_eval := true;
      overwrite_output_dir := false |}).

Definition world_with_checkpoint : World :=
  {| sys_argv := ["run_classifier.py"; "config.json"];
     abspath := fun p => "/work/" +:+ p;
     parse_json_file := fun _ => Ok some_args;
     isdir := fun p => String.eqb p "out";
     listdir := fun p =>
       if String.eqb p "out" then Ok ["checkpoint-500"] else Raise OSError;
     get_last_checkpoint := fun p =>
       if String.eqb p "out" then Some "out/checkpoint-500" else None;
     build_trainer := fun _ _ _ => Ok () |}.

(** A small linear congruential generator standing in for Python's
    Mersenne Twister: it meets the interface [shuffle] is written against. *)
Definition lcg_next (g : Z) : Z := (g * 1103515245 + 12345) `mod` 2147483648.

Definition lcg_randbelow (g : Z) (n : nat) : nat * Z :=
  (Z.to_nat (lcg_next g `mod` Z.of_nat n), lcg_next g).

Lemma lcg_randbelow_lt g n : (0 < n)%nat → (fst (lcg_randbelow g n) < n)%nat.
Proof.
  intros Hn. unfold lcg_randbelow. simpl.
  pose proof (Z.mod_pos_bound (lcg_next g) (Z.of_nat n)). lia.
Qed.

#[export] Instance lcg : Corpus.PyRandom :=
  {| Corpus.rng := Z;
     Corpus.Random := fun seed => seed;
     Corpus.randbelow := lcg_randbelow;
     Corpus.randbelow_lt := lcg_randbelow_lt |}.

(** A corpus with two language directories and a stray file at the top;
    "notes.txt" in NLD is not audio. *)
Definition leaf : string → Corpus.node := fun _ => Corpus.File.

Definition corpus_tree : Corpus.node :=
  Corpus.Dir ["NLD"; "README"; "ESP"]
    (fun c =>
       if String.eqb c "NLD" then Corpus.Dir ["a.mp3"; "notes.txt"; "b.mp3"] leaf
       else if String.eqb c "ESP" then Corpus.Dir ["c.mp3"] leaf
       else Corpus.File).

(** The same listings over different files: here every entry of a language
    directory is itself a directory, and names outside the listings resolve
    to directories as well. *)
Definition corpus_tree' : Corpus.node :=
  Corpus.Dir ["NLD"; "README"; "ESP"]
    (fun c =>
       if String.eqb c "NLD"
       then Corpus.Dir ["a.mp3"; "notes.txt"; "b.mp3"] (fun _ => Corpus.Dir [] leaf)
       else if String.eqb c "ESP" then Corpus.Dir ["c.mp3"] leaf
       else if String.eqb c "README" then Corpus.File
       else Corpus.Dir ["x.mp3"] leaf).

Definition empty_tree : Corpus.node := Corpus.Dir [] leaf.

(** A language directory that holds no ".mp3" file. *)
Definition wav_only_tree : Corpus.node :=
  Corpus.Dir ["NLD"] (fun _ => Corpus.Dir ["a.wav"; "b.wav"] leaf).

Definition corpus_run : Corpus.run :=
  {| Corpus.tree := corpus_tree; Corpus.global_random := 1 |}.

Definition wav_only_run : Corpus.run :=
  {| Corpus.tree := wav_only_tree; Corpus.global_random := 1 |}.

Definition corpus_run' : Corpus.run :=
  {| Corpus.tree := corpus_tree'; Corpus.global_random := 2 |}.

(** The script started without a configuration file. *)
Definition world_without_json : World :=
  {| sys_argv := ["run_classifier.py"; "--help"];
     abspath := fun p => "/work/" +:+ p;
     parse_json_file := fun _ => Ok some_args;
     isdir := fun _ => false;
     listdir := fun _ => Raise OSError;
     get_last_checkpoint := fun _ => None;
     build_trainer := fun _ _ _ => Ok () |}.

(** A reading of [wandb.config] over the loaded document: an attribute is
    the value of the document's key of that name. *)
Definition config_of (document : gmap string DidMain.json) : DidMain.Config :=
  fun name =>
    match document !! name with
    | Some v => Ok v
    | None => Raise AttributeError
    end.

Definition data_section : gmap string DidMain.json :=
  <["train_dataset" := DidMain.JStr "data/train/"]>
    (<["test_dataset" := DidMain.JStr "data/test/"]>
       (<["batch_size" := DidMain.JInt 8]>
          (<["shuffle" := DidMain.JBool true]> ∅))).

Definition document_with (data : gmap string DidMain.json)
    (optimizer loss_function : string) : gmap string DidMain.json :=
  <["data" := DidMain.JDict data]>
    (<["model" := DidMain.JDict
         (<["model_location" := DidMain.JStr "models/xlsr_53_56k.pt"]>
            (<["num_classes" := DidMain.JInt 5]>
               (<["freeze_fairseq" := DidMain.JBool true]> ∅)))]>
       (<["general" := DidMain.JDict
            (<["num_workers" := DidMain.JInt 4]>
               (<["epochs" := DidMain.JInt 10]>
                  (<["optimizer" := DidMain.JStr optimizer]>
                     (<["loss_function" := DidMain.JStr loss_function]>
                        (<["log_interval" := DidMain.JInt 10]>
                           (<["model_save_interval" := DidMain.JInt 1]> ∅))))))]>
          (<["optimizers" := DidMain.JDict
               (<["adam" := DidMain.JDict
                    (<["lr" := DidMain.JFloat (1 # 1000)]>
                       (<["weight_decay" := DidMain.JFloat (1 # 10000)]> ∅))]> ∅)]>
             (<["scheduler" := DidMain.JDict
                  (<["step_size" := DidMain.JInt 20]>
                     (<["gamma" := DidMain.JFloat (1 # 10)]> ∅))]>
                (<["loss_functions" := DidMain.JDict
                     (<["nllLoss" := DidMain.JDict
                          (<["output" := DidMain.JStr "log_softmax"]> ∅)]> ∅)]>
                   ∅))))).

(** A complete configuration, and one whose "data" section lacks
    "batch_size". *)
Definition config_with (optimizer loss_function : string) : DidMain.Config :=
  config_of (document_with data_section optimizer loss_function).

Definition config_without_batch_size (optimizer loss_function : string)
  : DidMain.Config :=
  config_of (document_with (delete "batch_size" data_section)
               optimizer loss_function).

(** A machine on which everything the script builds can be built. *)
Definition working_machine : DidMain.World :=
  {| DidMain.sys_argv := ["DidMain.py"; "config.json"];
     DidMain.json_load := fun _ =>
       Ok (DidMain.JDict (document_with data_section "adam" "nllLoss"));
     DidMain.wandb_init := fun did_config =>
       match did_config with
       | DidMain.JDict document => Ok (config_of document)
       | _ => Raise TypeError
       end;
     DidMain.device_eq_cuda := fun _ => false;
     DidMain.construct_dataset := fun _ => Ok ();
     DidMain.construct_model := fun _ => Ok ();
     DidMain.construct_loader := fun _ => Ok ();
     DidMain.construct_optimizer := fun _ => Ok ();
     DidMain.construct_scheduler := fun _ => Ok ();
     DidMain.construct_criterion := fun _ => Ok ();
     DidMain.construct_runner := fun _ => Ok () |}.

(** Two language directories of 4001 entries that differ in the last one
    only, and below the entries. *)
Definition long_tree (last : string) (below : Corpus.node) : Corpus.node :=
  Corpus.Dir ["NLD"]
    (fun _ => Corpus.Dir (replicate 4000 "x.mp3" ++ [last]) (fun _ => below)).

Definition long_run : Corpus.run :=
  {| Corpus.tree := long_tree "y.mp3" Corpus.File; Corpus.global_random := 1 |}.

Definition long_run' : Corpus.run :=
  {| Corpus.tree := long_tree "z.wav" (Corpus.Dir ["deep.mp3"] leaf);
     Corpus.global_random := 2 |}.

Definition two_underscores_record : gmap string pyval :=
  <["file" := PyStr "a.wav"]> (<["segment" := PyStr "1_2_4"]> ∅).

(** A feature whose label counts from the end, and what the collator
    makes of it. *)
Definition last_class_feature : feature :=
  {| input_values := [1 # 2]%Q; labels := -1 |}.

Definition last_class_batch : batch :=
  {| batch_input_values := [[1 # 2; 0; 0; 0]%Q];
     batch_labels := [[0; 0; 0; 0; 1]] |}.

(** Scores computed directly on the decoded classes: the share of
    agreeing positions for the accuracy, nothing of interest otherwise. *)
Definition plain_scoring : Scoring :=
  {| accuracy_score := fun labels preds =>
       Ok (Z.of_nat (length (filter (fun lp => lp.1 = lp.2) (zip labels preds)))
             # Pos.of_nat (length labels));
     f1_score := fun _ _ => Ok (0 # 1);
     classification_report := fun _ _ _ _ => Ok EmptyString;
     confusion_matrix := fun _ _ => Ok [];
     log_confusion_matrix := fun _ _ _ => Ok () |}.

(** The record [speech_file_to_array_fn] returns for [wav_record]. *)
Definition wav_row : gmap string pyval :=
  <["parent" := PyInt 3]>
    (<["sampling_rate" := PyInt 16000]>
       (<["speech" := PyArr six_frames]> wav_record)).

(** An output directory left over from something else than a training
    run: it has files, none of them a checkpoint. *)
Definition world_with_stale_output : World :=
  {| sys_argv := ["run_classifier.py"; "config.json"];
     abspath := fun p => "/work/" +:+ p;
     parse_json_file := fun _ => Ok some_args;
     isdir := fun p => String.eqb p "out";
     listdir := fun p =>
       if String.eqb p "out" then Ok ["notes.txt"] else Raise OSError;
     get_last_checkpoint := fun _ => None;
     build_trainer := fun _ _ _ => Ok () |}.

Definition one_gpu : DidMain.Cuda :=
  {| DidMain.is_available := true; DidMain.device_count := 1 |}.

Definition four_gpus : DidMain.Cuda :=
  {| DidMain.is_available := true; DidMain.device_count := 4 |}.

End Inputs.

(** * Properties *)

(** ** Facts about the Python preliminaries *)

Module PyFacts.

Lemma bind_ok {A B} (m : result A) (f : A → result B) b :
  m ≫= f = Ok b ↔ ∃ a, m = Ok a ∧ f a = Ok b.
Proof.
  destruct m as [a|e]; simpl.
  - split; [eauto|]. by intros (a' & [= <-] & ?).
  - split; [done|]. by intros (a' & ? & ?).
Qed.

Lemma bind_Ok {A B} (a : A) (f : A → result B) : Ok a ≫= f = f a.
Proof. reflexivity. Qed.

Lemma bind_Raise {A B} e (f : A → result B) : Raise e ≫= f = Raise e.
Proof. reflexivity. Qed.

Lemma endswith_nil suffix : endswith EmptyString suffix = String.eqb EmptyString suffix.
Proof. unfold endswith. apply orb_false_r. Qed.

Lemma endswith_cons c s suffix :
  endswith (String c s) suffix = String.eqb (String c s) suffix || endswith s suffix.
Proof. reflexivity. Qed.

Lemma endswith_correct s suffix :
  endswith s suffix = true ↔ ∃ p, s = p +:+ suffix.
Proof.
  induction s as [|c s IH].
  - rewrite endswith_nil, String.eqb_eq. split.
    + intros <-. by exists EmptyString.
    + intros [[|c p] Hp]; simpl in Hp; [done | discriminate].
  - rewrite endswith_cons, orb_true_iff, String.eqb_eq, IH. split.
    + intros [<- | [p ->]]; [by exists EmptyString | by exists (String c p)].
    + intros [[|c' p] Hp]; simpl in Hp; [by left | right].
      injection Hp as -> ->. by exists p.
Qed.

Lemma list_setitem_in_range {A} (l : list A) i v :
  0 ≤ i < Z.of_nat (length l) →
  list_setitem l i v = Ok (<[Z.to_nat i := v]> l).
Proof. intros Hi. unfold list_setitem. by rewrite bool_decide_true. Qed.

Lemma list_setitem_out_of_range {A} (l : list A) i v :
  Z.of_nat (length l) ≤ i ∨ i < - Z.of_nat (length l) →
  list_setitem l i v = Raise IndexError.
Proof.
  intros Hi. unfold list_setitem.
  rewrite bool_decide_false by lia. by rewrite bool_decide_false by lia.
Qed.

Lemma list_setitem_cases {A} (l : list A) i v :
  list_setitem l i v = Raise IndexError ∨ ∃ l', list_setitem l i v = Ok l'.
Proof. unfold list_setitem. repeat case_bool_decide; eauto. Qed.

Lemma length_list_repeat {A} (x : A) n : length (list_repeat x n) = Z.to_nat n.
Proof. apply length_replicate. Qed.

Lemma comprehension_ok {A B} (f : A → result B) (g : A → B) l :
  (∀ x, x ∈ l → f x = Ok (g x)) → comprehension f l = Ok (g <$> l).
Proof.
  induction l as [|x l IH]; intros Hf; [done|]. simpl.
  rewrite (Hf x) by left. simpl. rewrite IH; [done|].
  intros y Hy. apply Hf. by right.
Qed.

Lemma comprehension_raise {A B} (f : A → result B) e l :
  (∀ x, x ∈ l → f x = Raise e ∨ ∃ y, f x = Ok y) →
  (∃ x, x ∈ l ∧ f x = Raise e) →
  comprehension f l = Raise e.
Proof.
  induction l as [|x l IH]; intros Hall (x0 & Hin & Hx0).
  - by apply elem_of_nil in Hin.
  - simpl. destruct (Hall x) as [Hx | [y Hx]]; [left | by rewrite Hx | ].
    rewrite Hx. simpl. rewrite IH; [done | | ].
    + intros z Hz. apply Hall. by right.
    + apply elem_of_cons in Hin as [-> | Hin]; [congruence | eauto].
Qed.

End PyFacts.

(** ** klaam-modified/run_classifier.py: the data collator *)

Module CollatorFacts.
Import RunClassifier PyFacts.

Lemma onehot_in_range self k :
  0 ≤ k < number_of_labels self →
  onehot self k = Ok (<[Z.to_nat k := 1]> (list_repeat 0 (number_of_labels self))).
Proof.
  intros Hk. unfold onehot. apply list_setitem_in_range.
  rewrite length_list_repeat. lia.
Qed.

Lemma onehot_out_of_range self k :
  number_of_labels self ≤ k ∨ k < - number_of_labels self →
  onehot self k = Raise IndexError.
Proof.
  intros Hk. unfold onehot. apply list_setitem_out_of_range.
  rewrite length_list_repeat. lia.
Qed.

Lemma onehot_cases self k :
  onehot self k = Raise IndexError ∨ ∃ row, onehot self k = Ok row.
Proof. apply list_setitem_cases. Qed.

Lemma is_one_hot_insert n k :
  0 ≤ k < n → is_one_hot n k (<[Z.to_nat k := 1]> (list_repeat 0 n)).
Proof.
  intros Hk. unfold is_one_hot, list_repeat.
  rewrite length_insert, length_replicate. split; [lia|].
  intros i Hi. case_bool_decide as Hik.
  - replace (Z.to_nat k) with i by lia.
    apply list_lookup_insert_eq. by rewrite length_replicate.
  - rewrite list_lookup_insert_ne by lia. by apply lookup_replicate_2.
Qed.

Lemma pad_target_ge longest multiple :
  0 ≤ longest → multiple_ok multiple →
  ∃ t, pad_target longest multiple = Ok t ∧ longest ≤ t.
Proof.
  intros Hl Hm. destruct multiple as [p|]; simpl in *; [|eauto with lia].
  rewrite bool_decide_false by lia.
  case_bool_decide as Hmod; [eauto with lia|].
  eexists; split; [done|].
  pose proof (Z.mod_pos_bound longest p Hm).
  pose proof (Z.div_mod longest p). nia.
Qed.

Lemma length_pad_row target row :
  (length row ≤ target)%nat → length (pad_row target row) = target.
Proof.
  intros Hle. unfold pad_row. case_bool_decide.
  - rewrite length_app, length_replicate. lia.
  - lia.
Qed.

Lemma pad_row_prefix target row : row `prefix_of` pad_row target row.
Proof. unfold pad_row. case_bool_decide; [by apply prefix_app_r | done]. Qed.

Lemma rectangular_same_length rows L :
  (∀ r, r ∈ rows → length r = L) → rectangular rows = true.
Proof.
  destruct rows as [|row rows]; [done|]. intros Hlen. simpl.
  apply forallb_forall. intros r Hr. apply Nat.eqb_eq.
  rewrite (Hlen row) by left. apply Hlen. right. by apply list_elem_of_In.
Qed.

Lemma longest_pad_ok rows padding max_length multiple :
  multiple_ok multiple →
  ∃ t, longest_pad rows padding max_length multiple = Ok (pad_row t <$> rows) ∧
       ∀ r, r ∈ rows → (length r ≤ t)%nat.
Proof.
  intros Hm. destruct rows as [|row rows].
  { exists 0%nat. split; [done|]. by intros r ?%elem_of_nil. }
  set (all := row :: rows). unfold longest_pad. fold all.
  destruct (pad_target_ge (Z.of_nat (max_list (length <$> all))) multiple)
    as (t & -> & Ht); [lia | done |].
  rewrite bind_Ok. exists (Z.to_nat t).
  assert (∀ r, r ∈ all → (length r ≤ Z.to_nat t)%nat) as Hle.
  { intros r Hr.
    assert (length r ≤ max_list (length <$> all))%nat
      by (by apply max_list_elem_of_le, list_elem_of_fmap_2).
    lia. }
  rewrite (rectangular_same_length _ (Z.to_nat t)); [done|].
  intros r (r0 & -> & Hr0)%list_elem_of_fmap. by apply length_pad_row, Hle.
Qed.

(** C1, as amended: on a non-empty list of features whose labels are class
    indices below [number_of_labels], the collator (with the padding
    processor, and a multiple to pad to that is unset or positive) returns a
    batch whose
    ["input_values"] rows all have one length, each row being the feature's
    samples followed by padding, and whose ["labels"] row [i] is the one-hot
    vector of length [number_of_labels] for [int(features[i]["labels"])]. *)
Theorem collator_pads_and_one_hot_encodes self features :
  processor self = CustomWav2Vec2Processor →
  multiple_ok (pad_to_multiple_of self) →
  features ≠ [] →
  (∀ f, f ∈ features → 0 ≤ labels f < number_of_labels self) →
  ∃ b, __call__ self features = Ok b ∧
    (∃ L, ∀ row, row ∈ batch_input_values b → length row = L) ∧
    length (batch_input_values b) = length features ∧
    length (batch_labels b) = length features ∧
    ∀ i f, features !! i = Some f →
      (∃ row, batch_input_values b !! i = Some row ∧
              input_values f `prefix_of` row) ∧
      (∃ row, batch_labels b !! i = Some row ∧
              is_one_hot (number_of_labels self) (labels f) row).
Proof.
  intros Hproc Hm _ Hlabels. unfold __call__.
  rewrite (comprehension_ok _
    (fun f => <[Z.to_nat (labels f) := 1]> (list_repeat 0 (number_of_labels self)))).
  2:{ intros f Hf. by apply onehot_in_range, Hlabels. }
  rewrite Hproc. simpl.
  destruct (longest_pad_ok (input_values <$> features) true
              (max_length self) (pad_to_multiple_of self) Hm) as (t & -> & Hle).
  simpl. eexists; split; [done|]. simpl. split; [|split; [|split]].
  - exists t. intros row (r & -> & Hr)%list_elem_of_fmap.
    by apply length_pad_row, Hle.
  - by rewrite !length_fmap.
  - by rewrite length_fmap.
  - intros i f Hi. split.
    + exists (pad_row t (input_values f)). split; [|apply pad_row_prefix].
      by rewrite !list_lookup_fmap, Hi.
    + eexists. split; [by rewrite list_lookup_fmap, Hi|].
      apply is_one_hot_insert, Hlabels. by eapply list_elem_of_lookup_2.
Qed.

(** C1, as stated, fails: with a multiple to pad to of 0, as the script
    passes for a window of length 0, rounding the longest length up to a
    multiple divides by zero and no batch is returned, although the list of
    features is not empty and every label is a class index. *)
Lemma collator_zero_multiple_raises :
  ¬ (∀ self features,
       processor self = CustomWav2Vec2Processor →
       features ≠ [] →
       (∀ f, f ∈ features → 0 ≤ labels f < number_of_labels self) →
       ∃ b, __call__ self features = Ok b ∧
         (∃ L, ∀ row, row ∈ batch_input_values b → length row = L) ∧
         length (batch_input_values b) = length features ∧
         length (batch_labels b) = length features ∧
         ∀ i f, features !! i = Some f →
           (∃ row, batch_input_values b !! i = Some row ∧
                   input_values f `prefix_of` row) ∧
           (∃ row, batch_labels b !! i = Some row ∧
                   is_one_hot (number_of_labels self) (labels f) row)).
Proof.
  intros Hcall.
  destruct (Hcall Inputs.collator_window_0 Inputs.two_features) as (b & Hb & _).
  - reflexivity.
  - discriminate.
  - intros f Hf. unfold Inputs.two_features in Hf.
    apply elem_of_cons in Hf as [-> | Hf]; [simpl; lia|].
    apply elem_of_cons in Hf as [-> | Hf]; [simpl; lia|].
    by apply elem_of_nil in Hf.
  - vm_compute in Hb. discriminate Hb.
Qed.

(** C9: a feature whose label is at or above [number_of_labels], or below
    its negation, makes the call fail with an IndexError; when every label
    lies in [0, number_of_labels) no label raises, and the call goes on to
    the padding step with the one-hot rows. *)
Theorem onehot_index_error self features :
  (∀ f, f ∈ features →
        number_of_labels self ≤ labels f ∨ labels f < - number_of_labels self →
        __call__ self features = Raise IndexError) ∧
  ((∀ f, f ∈ features → 0 ≤ labels f < number_of_labels self) →
   (∀ f, f ∈ features → onehot self (labels f) ≠ Raise IndexError) ∧
   ∃ rows, __call__ self features =
     padded ← pad (processor self) (input_values <$> features) true
                (max_length self) (pad_to_multiple_of self);
     Ok {| batch_input_values := padded; batch_labels := rows |}).
Proof.
  split.
  - intros f Hf Hbad. unfold __call__.
    rewrite (comprehension_raise _ IndexError); [done | |].
    + intros x _. apply onehot_cases.
    + exists f. split; [done|]. by apply onehot_out_of_range.
  - intros Hlabels. split.
    + intros f Hf. by rewrite onehot_in_range by (by apply Hlabels).
    + eexists. unfold __call__.
      rewrite (comprehension_ok _ (fun f =>
        <[Z.to_nat (labels f) := 1]> (list_repeat 0 (number_of_labels self)))).
      * done.
      * intros f Hf. by apply onehot_in_range, Hlabels.
Qed.

End CollatorFacts.

(** ** klaam-modified/run_classifier.py: preprocessing and [main] *)

Module PreprocessingFacts.
Import RunClassifier PyFacts.

Lemma endswith_length s suffix :
  endswith s suffix = true → (String.length suffix ≤ String.length s)%nat.
Proof.
  induction s as [|c s IH].
  - rewrite endswith_nil, String.eqb_eq. by intros <-.
  - rewrite endswith_cons, orb_true_iff, String.eqb_eq.
    intros [<- | H]; [done|]. apply IH in H. simpl. lia.
Qed.

(** A string has one suffix of each length. *)
Lemma endswith_same_length s suf1 suf2 :
  String.length suf1 = String.length suf2 →
  endswith s suf1 = true → endswith s suf2 = true → suf1 = suf2.
Proof.
  intros Hlen. induction s as [|c s IH].
  - rewrite !endswith_nil, !String.eqb_eq. congruence.
  - rewrite !endswith_cons, !orb_true_iff, !String.eqb_eq.
    intros [<- | H1] [<- | H2]; [done | | | by apply IH].
    + apply endswith_length in H2. simpl in *. lia.
    + apply endswith_length in H1. simpl in *. lia.
Qed.

Lemma mp3_is_not_wav name :
  endswith name ".mp3" = true → endswith name ".wav" = false.
Proof.
  intros Hmp3. destruct (endswith name ".wav") eqn:Hwav; [|done].
  by pose proof (endswith_same_length name ".mp3" ".wav" eq_refl Hmp3 Hwav).
Qed.

Lemma getitem_Some d key v : d !! key = Some v → getitem d key = Ok v.
Proof. unfold getitem. by intros ->. Qed.

Lemma getitem_ok d key v : getitem d key = Ok v → d !! key = Some v.
Proof. unfold getitem. by destruct (d !! key); intros [= ->]. Qed.

Lemma as_str_ok v s : as_str v = Ok s → v = PyStr s.
Proof. by destruct v; intros [= ->]. Qed.

(** What the tail of the function stores once the signal is resampled. *)
Lemma store_speech_ok libs batch speech_array sampling_rate speech parent :
  Audio.librosa_resample libs speech_array sampling_rate 16000 = Ok speech →
  batch !! "label" = Some parent →
  store_speech libs batch speech_array sampling_rate =
    Ok (<["parent" := parent]>
          (<["sampling_rate" := PyInt 16000]> (<["speech" := PyArr speech]> batch))).
Proof.
  intros Hres Hlabel. unfold store_speech. rewrite Hres, bind_Ok.
  erewrite getitem_Some; [done|].
  by rewrite !lookup_insert_ne.
Qed.

(** The tail returns exactly when the resampling does and the record has a
    "label", and then with these three fields set. *)
Lemma store_speech_iff libs batch speech_array sampling_rate batch' :
  store_speech libs batch speech_array sampling_rate = Ok batch' ↔
  ∃ speech parent,
    Audio.librosa_resample libs speech_array sampling_rate 16000 = Ok speech ∧
    batch !! "label" = Some parent ∧
    batch' = <["parent" := parent]>
               (<["sampling_rate" := PyInt 16000]> (<["speech" := PyArr speech]> batch)).
Proof.
  split.
  - unfold store_speech.
    intros (speech & Hres & (parent & Hparent%getitem_ok & [= <-])%bind_ok)%bind_ok.
    exists speech, parent. split; [done|]. split; [|done].
    by rewrite !lookup_insert_ne in Hparent.
  - intros (speech & parent & Hres & Hlabel & ->). by apply store_speech_ok.
Qed.

Lemma first_channel_ok tensor channel :
  first_channel tensor = Ok channel ↔ tensor !! 0%nat = Some channel.
Proof. unfold first_channel. destruct (tensor !! 0%nat); split; congruence. Qed.

Section branches.
Context (libs : Audio.Libs) (window_length : Z) (batch : gmap string pyval).
Context (name : string) (Hfile : batch !! "file" = Some (PyStr name)).

Lemma speech_file_to_array_fn_name :
  speech_file_to_array_fn libs window_length batch =
    bound ←
      (if endswith name ".wav" then
         r ← Audio.sf_read libs (PyStr name) (PyInt 0) (PyInt (window_length * 16000));
         Ok (Some r)
       else if endswith name ".mp3" then
         r ← Audio.torchaudio_load libs name;
         channel ← first_channel r.1;
         Ok (Some (slice_upto channel (window_length * 16000), r.2))
       else Ok None);
    locals ← match bound with
             | Some locals => Ok locals
             | None => Raise (UnboundLocalError "speech_array")
             end;
    store_speech libs batch locals.1 locals.2.
Proof.
  unfold speech_file_to_array_fn.
  rewrite (getitem_Some _ _ _ Hfile), bind_Ok. cbn [as_str]. rewrite bind_Ok.
  destruct (endswith name ".wav").
  - by destruct (Audio.sf_read _ _ _ _) as [[data rate]|e].
  - destruct (endswith name ".mp3"); [|done].
    destruct (Audio.torchaudio_load _ _) as [[tensor rate]|e]; [|done].
    rewrite !bind_Ok. cbn [fst snd]. by destruct (first_channel tensor).
Qed.

Lemma speech_file_to_array_fn_wav :
  endswith name ".wav" = true →
  speech_file_to_array_fn libs window_length batch =
    r ← Audio.sf_read libs (PyStr name) (PyInt 0) (PyInt (window_length * 16000));
    store_speech libs batch r.1 r.2.
Proof.
  intros Hwav. rewrite speech_file_to_array_fn_name, Hwav.
  by destruct (Audio.sf_read _ _ _ _).
Qed.

Lemma speech_file_to_array_fn_mp3 :
  endswith name ".mp3" = true →
  speech_file_to_array_fn libs window_length batch =
    r ← Audio.torchaudio_load libs name;
    channel ← first_channel r.1;
    store_speech libs batch (slice_upto channel (window_length * 16000)) r.2.
Proof.
  intros Hmp3. rewrite speech_file_to_array_fn_name, (mp3_is_not_wav _ Hmp3), Hmp3.
  destruct (Audio.torchaudio_load _ _) as [[tensor rate]|e]; [|done].
  rewrite !bind_Ok. by destruct (first_channel _).
Qed.

Lemma speech_file_to_array_fn_other :
  endswith name ".wav" = false → endswith name ".mp3" = false →
  speech_file_to_array_fn libs window_length batch =
    Raise (UnboundLocalError "speech_array").
Proof. intros Hwav Hmp3. by rewrite speech_file_to_array_fn_name, Hwav, Hmp3. Qed.

End branches.

Lemma speech_file_to_array_fn_ok_name libs window_length batch batch' :
  speech_file_to_array_fn libs window_length batch = Ok batch' →
  ∃ name, batch !! "file" = Some (PyStr name).
Proof.
  unfold speech_file_to_array_fn. intros Hok.
  apply bind_ok in Hok as (file & Hget%getitem_ok & Hok).
  apply bind_ok in Hok as (name & ->%as_str_ok & _). eauto.
Qed.

(** C10: the function returns only on records whose file name ends in
    ".wav" or ".mp3".  On a ".wav" name it returns exactly when soundfile
    reads the file from frame 0 to frame [window_length * 16000], these
    frames can be resampled and the record has a "label"; the record
    returned holds the resampled frames.  On a ".mp3" name it returns
    exactly when torchaudio decodes the file into at least one channel, the
    slice [[: window_length * 16000]] of the first channel (its first
    [window_length * 16000] samples, or all but the last
    [- window_length * 16000] for a negative window) can be resampled and
    the record has a "label"; the record returned holds the resampled slice.
    On any other name it raises UnboundLocalError on [speech_array], and
    nothing is returned. *)
Theorem speech_file_to_array_fn_cases libs window_length batch :
  (∀ batch', speech_file_to_array_fn libs window_length batch = Ok batch' →
     ∃ name, batch !! "file" = Some (PyStr name) ∧
             (endswith name ".wav" = true ∨ endswith name ".mp3" = true)) ∧
  (∀ name, batch !! "file" = Some (PyStr name) →
     (endswith name ".wav" = true →
        ∀ batch', speech_file_to_array_fn libs window_length batch = Ok batch' ↔
          ∃ frames sampling_rate speech parent,
            Audio.sf_read libs (PyStr name) (PyInt 0) (PyInt (window_length * 16000))
              = Ok (frames, sampling_rate) ∧
            Audio.librosa_resample libs frames sampling_rate 16000 = Ok speech ∧
            batch !! "label" = Some parent ∧
            batch' = <["parent" := parent]>
                       (<["sampling_rate" := PyInt 16000]>
                          (<["speech" := PyArr speech]> batch))) ∧
     (endswith name ".mp3" = true →
        ∀ batch', speech_file_to_array_fn libs window_length batch = Ok batch' ↔
          ∃ tensor sampling_rate channel speech parent,
            Audio.torchaudio_load libs name = Ok (tensor, sampling_rate) ∧
            tensor !! 0%nat = Some channel ∧
            Audio.librosa_resample libs
              (if bool_decide (0 ≤ window_length * 16000)
               then take (Z.to_nat (window_length * 16000)) channel
               else take (length channel - Z.to_nat (- (window_length * 16000)))
                      channel)
              sampling_rate 16000 = Ok speech ∧
            batch !! "label" = Some parent ∧
            batch' = <["parent" := parent]>
                       (<["sampling_rate" := PyInt 16000]>
                          (<["speech" := PyArr speech]> batch))) ∧
     (endswith name ".wav" = false → endswith name ".mp3" = false →
        speech_file_to_array_fn libs window_length batch =
          Raise (UnboundLocalError "speech_array"))).
Proof.
  split.
  - intros batch' Hok.
    destruct (speech_file_to_array_fn_ok_name _ _ _ _ Hok) as [name Hfile].
    exists name. split; [done|].
    destruct (endswith name ".wav") eqn:Hwav; [by left|].
    destruct (endswith name ".mp3") eqn:Hmp3; [by right|].
    by rewrite (speech_file_to_array_fn_other _ _ _ name) in Hok.
  - intros name Hfile. split; [|split].
    + intros Hwav batch'.
      rewrite (speech_file_to_array_fn_wav _ _ _ name) by done.
      destruct (Audio.sf_read _ _ _ _) as [[frames rate]|e].
      * rewrite bind_Ok, store_speech_iff. cbn [fst snd]. split.
        -- intros (speech & parent & ?). by exists frames, rate, speech, parent.
        -- intros (? & ? & speech & parent & [= <- <-] & ?). eauto.
      * rewrite bind_Raise. split; [done|]. by intros (? & ? & ? & ? & ? & _).
    + intros Hmp3 batch'.
      rewrite (speech_file_to_array_fn_mp3 _ _ _ name) by done.
      destruct (Audio.torchaudio_load _ _) as [[tensor rate]|e].
      * rewrite bind_Ok. cbn [fst snd].
        destruct (first_channel tensor) as [channel|e] eqn:Hchannel.
        -- apply first_channel_ok in Hchannel.
           rewrite bind_Ok, store_speech_iff. unfold slice_upto. split.
           ++ intros (speech & parent & ?).
              by exists tensor, rate, channel, speech, parent.
           ++ intros (? & ? & channel' & speech & parent & [= <- <-] & Hc & ?).
              rewrite Hchannel in Hc. injection Hc as <-. eauto.
        -- rewrite bind_Raise. split; [done|].
           intros (? & ? & channel & ? & ? & [= <- <-] & Hc%first_channel_ok & _).
           congruence.
      * rewrite bind_Raise. split; [done|]. by intros (? & ? & ? & ? & ? & ? & _).
    + by apply speech_file_to_array_fn_other.
Qed.

End PreprocessingFacts.

Module MainFacts.
Import RunClassifier PyFacts.

Lemma parse_args_json w prog a :
  sys_argv w = [prog; a] → endswith a ".json" = true →
  parse_args w = parse_json_file w (abspath w a).
Proof. intros Hargv Hjson. unfold parse_args. rewrite Hargv. simpl. by rewrite Hjson. Qed.

Lemma parse_args_exit w :
  ¬ (∃ prog a, sys_argv w = [prog; a] ∧ endswith a ".json" = true) →
  parse_args w = Raise (SystemExit (ExitCode 1)).
Proof.
  intros Hno. unfold parse_args.
  destruct (sys_argv w) as [|prog [|a [|b argv]]] eqn:Hargv; try done.
  simpl. destruct (endswith a ".json") eqn:Hjson; [|done].
  destruct Hno. eauto.
Qed.

(** C6: unless the argument vector is the program name followed by one
    argument ending in ".json", [main] exits with status 1; otherwise the
    three groups of arguments it goes on with are those parsed from that
    file (its absolute path). *)
Theorem main_reads_json_or_exits w :
  (¬ (∃ prog a, sys_argv w = [prog; a] ∧ endswith a ".json" = true) →
     main w = Raise (SystemExit (ExitCode 1))) ∧
  (∀ prog a, sys_argv w = [prog; a] → endswith a ".json" = true →
     main w = args ← parse_json_file w (abspath w a); main_body w args).
Proof.
  split.
  - intros Hno. unfold main. by rewrite parse_args_exit.
  - intros prog a Hargv Hjson. unfold main. by erewrite parse_args_json.
Qed.

Lemma detect_last_checkpoint_ok w training_args last :
  detect_last_checkpoint w training_args = Ok last →
  last = if isdir w (output_dir training_args) && do_train training_args
            && negb (overwrite_output_dir training_args)
         then get_last_checkpoint w (output_dir training_args)
         else None.
Proof.
  unfold detect_last_checkpoint.
  destruct (_ && _ && _); [|by intros [= <-]].
  destruct (get_last_checkpoint _ _) as [c|]; [by intros [= <-]|].
  destruct (listdir _ _) as [entries|e]; [|done]. rewrite bind_Ok.
  case_bool_decide; [done | by intros [= <-]].
Qed.

Lemma train_call_checkpoint w model_args training_args last ckpt :
  Train ckpt ∈ training w model_args training_args last ++ evaluation training_args →
  do_train training_args = true ∧
  ckpt = match last with
         | Some c => Some c
         | None => if isdir w (model_name_or_path model_args)
                   then Some (model_name_or_path model_args) else None
         end.
Proof.
  unfold training, evaluation. intros Hin.
  apply elem_of_app in Hin as [Hin | Hin].
  - destruct (do_train training_args); [|by apply elem_of_nil in Hin].
    split; [done|].
    apply elem_of_cons in Hin as [[= ->] | Hin]; [done|].
    repeat (apply elem_of_cons in Hin as [? | Hin]; [discriminate|]).
    by apply elem_of_nil in Hin.
  - destruct (do_eval training_args); [|by apply elem_of_nil in Hin].
    repeat (apply elem_of_cons in Hin as [? | Hin]; [discriminate|]).
    by apply elem_of_nil in Hin.
Qed.

(** C4, as amended: whenever [main] reaches [trainer.train], the checkpoint
    it passes is the last checkpoint found in the output directory when that
    directory exists and [overwrite_output_dir] is not set, so that training
    resumes from it; failing that it is [model_name_or_path] when this is a
    directory, and None only otherwise. *)
Theorem train_resumes_from_detected_checkpoint w model_args data_args training_args
    calls ckpt :
  parse_args w = Ok (model_args, data_args, training_args) →
  main w = Ok calls →
  Train ckpt ∈ calls →
  ckpt = resume_point w model_args training_args.
Proof.
  intros Hargs Hmain Hin. unfold main in Hmain. rewrite Hargs, bind_Ok in Hmain.
  unfold main_body in Hmain.
  apply bind_ok in Hmain as (last & Hlast & Hmain).
  apply bind_ok in Hmain as ([] & _ & [= <-]).
  apply detect_last_checkpoint_ok in Hlast.
  apply train_call_checkpoint in Hin as [Htrain ->].
  unfold resume_point. subst last. rewrite Htrain, andb_true_r. done.
Qed.

(** C4, as stated, fails: with a checkpoint in the output directory the
    call is [trainer.train(resume_from_checkpoint="out/checkpoint-500")]. *)
Lemma train_checkpoint_not_always_None :
  ¬ (∀ w calls ckpt, main w = Ok calls → Train ckpt ∈ calls → ckpt = None).
Proof.
  intros Hnone.
  specialize (Hnone Inputs.world_with_checkpoint
    [Train (Some "out/checkpoint-500"); SaveModel; LogMetrics "train";
     SaveMetrics "train"; SaveState;
     Evaluate; LogMetrics "eval"; SaveMetrics "eval"]
    (Some "out/checkpoint-500") eq_refl).
  discriminate Hnone. left.
Qed.

End MainFacts.

(** ** DidMain.py *)

Module DidMainFacts.
Import DidMain PyFacts.

(** The model the setup hands on is the configured one, wrapped on
    several devices. *)
Lemma setup_model w cuda config model :
  setup w cuda config = Ok model →
  ∃ plain, plain_model config = Ok plain ∧
    model = if bool_decide (device_count cuda > 1)
            then DataParallelModel plain else plain.
Proof.
  unfold setup, plain_model. intros Hsetup.
  apply bind_ok in Hsetup as ([] & _ & Hsetup).
  apply bind_ok in Hsetup as (kwargs & _ & Hsetup).
  apply bind_ok in Hsetup as (train_set & _ & Hsetup).
  apply bind_ok in Hsetup as (test_set & _ & Hsetup).
  apply bind_ok in Hsetup as (model_path & Hpath & Hsetup).
  apply bind_ok in Hsetup as (num_classes & Hclasses & Hsetup).
  apply bind_ok in Hsetup as (freeze_fairseq & Hfreeze & Hsetup).
  apply bind_ok in Hsetup as ([] & _ & Hsetup).
  apply bind_ok in Hsetup as (m & Hm & Hsetup).
  apply bind_ok in Hsetup as (train_loader & _ & Hsetup).
  apply bind_ok in Hsetup as (test_loader & _ & [= <-]).
  rewrite Hpath, bind_Ok, Hclasses, bind_Ok, Hfreeze, bind_Ok.
  eexists. split; [done|].
  case_bool_decide; [|by injection Hm].
  by apply bind_ok in Hm as (? & _ & [= <-]).
Qed.

Lemma plain_model_not_wrapped config plain :
  plain_model config = Ok plain → ¬ wrapped_model plain.
Proof.
  unfold plain_model. intros (model_path & _ & Hplain)%bind_ok.
  apply bind_ok in Hplain as (num_classes & _ & Hplain).
  apply bind_ok in Hplain as (freeze_fairseq & _ & [= <-]).
  by intros [m' ?].
Qed.

Lemma select_optimizer_exit w config model name :
  read config "general" "optimizer" = Ok (JStr name) →
  name ≠ "adam" →
  select_optimizer w config model =
    Raise (SystemExit (ExitMsg ("you must specify optimizer for " +:+ name))).
Proof.
  intros Hname Hne. unfold select_optimizer. rewrite Hname, bind_Ok.
  by destruct (String.eqb_spec name "adam").
Qed.

Lemma select_optimizer_ok w config model optimizer :
  select_optimizer w config model = Ok optimizer →
  read config "general" "optimizer" = Ok (JStr "adam") ∧
  ∃ lr weight_decay,
    read_entry config "optimizers" "adam" "lr" = Ok lr ∧
    read_entry config "optimizers" "adam" "weight_decay" = Ok weight_decay ∧
    optimizer = Adam model lr weight_decay.
Proof.
  unfold select_optimizer. intros (name & Hname & Hselect)%bind_ok.
  destruct name as [| | | |name| |]; try done.
  destruct (String.eqb_spec name "adam") as [->|]; [|done].
  apply bind_ok in Hselect as (lr & Hlr & Hselect).
  apply bind_ok in Hselect as (weight_decay & Hwd & Hselect).
  apply bind_ok in Hselect as ([] & _ & [= <-]). eauto 10.
Qed.

Lemma make_scheduler_ok w config optimizer scheduler :
  make_scheduler w config optimizer = Ok scheduler →
  ∃ step_size gamma,
    read config "scheduler" "step_size" = Ok step_size ∧
    read config "scheduler" "gamma" = Ok gamma ∧
    scheduler = StepLR optimizer step_size gamma.
Proof.
  unfold make_scheduler. intros (step_size & Hstep & Hmake)%bind_ok.
  apply bind_ok in Hmake as (gamma & Hgamma & Hmake).
  apply bind_ok in Hmake as ([] & _ & [= <-]). eauto 10.
Qed.

Lemma make_runner_exit w cuda config model optimizer scheduler name :
  read config "general" "loss_function" = Ok (JStr name) →
  name ≠ "nllLoss" →
  make_runner w cuda config model optimizer scheduler =
    Raise (SystemExit (ExitMsg ("you must specify loss_function for " +:+ name))).
Proof.
  intros Hname Hne. unfold make_runner. rewrite Hname, bind_Ok.
  by destruct (String.eqb_spec name "nllLoss").
Qed.

Lemma make_runner_ok w cuda config model optimizer scheduler r :
  make_runner w cuda config model optimizer scheduler = Ok r →
  read config "general" "loss_function" = Ok (JStr "nllLoss") ∧
  ∃ output_for_loss,
    read_entry config "loss_functions" "nllLoss" "output" = Ok output_for_loss ∧
    r = {| runner_device := device_name cuda;
           runner_model := model;
           runner_optimizer := optimizer;
           runner_scheduler := scheduler;
           runner_loss_function :=
             if bool_decide (device_count cuda > 1)
             then DataParallelCriterion nll_loss else nll_loss;
           runner_output_for_loss := output_for_loss |}.
Proof.
  unfold make_runner. intros (name & Hname & Hmake)%bind_ok.
  destruct name as [| | | |name| |]; try done.
  destruct (String.eqb_spec name "nllLoss") as [->|]; [|done].
  apply bind_ok in Hmake as (loss & Hloss & Hmake).
  apply bind_ok in Hmake as (output & Houtput & Hmake).
  apply bind_ok in Hmake as ([] & _ & [= <-]).
  split; [done|]. exists output. split; [done|]. f_equal.
  case_bool_decide; [|by injection Hloss].
  by apply bind_ok in Hloss as (? & _ & [= <-]).
Qed.

Lemma script_optimizer_exit w cuda config model name :
  setup w cuda config = Ok model →
  read config "general" "optimizer" = Ok (JStr name) →
  name ≠ "adam" →
  script w cuda config =
    Raise (SystemExit (ExitMsg ("you must specify optimizer for " +:+ name))).
Proof.
  intros Hsetup Hname Hne. unfold script.
  by rewrite Hsetup, bind_Ok, (select_optimizer_exit _ _ _ name).
Qed.

Lemma script_loss_exit w cuda config model optimizer scheduler name :
  setup w cuda config = Ok model →
  select_optimizer w config model = Ok optimizer →
  make_scheduler w config optimizer = Ok scheduler →
  read config "general" "loss_function" = Ok (JStr name) →
  name ≠ "nllLoss" →
  script w cuda config =
    Raise (SystemExit (ExitMsg ("you must specify loss_function for " +:+ name))).
Proof.
  intros Hsetup Hoptimizer Hscheduler Hname Hne. unfold script.
  rewrite Hsetup, bind_Ok, Hoptimizer, bind_Ok, Hscheduler, bind_Ok.
  by apply make_runner_exit.
Qed.

(** What the script has built when it returns. *)
Lemma script_ok_inv w cuda config r :
  script w cuda config = Ok r →
  ∃ plain lr weight_decay step_size gamma output_for_loss,
    plain_model config = Ok plain ∧
    read_entry config "optimizers" "adam" "lr" = Ok lr ∧
    read_entry config "optimizers" "adam" "weight_decay" = Ok weight_decay ∧
    read config "scheduler" "step_size" = Ok step_size ∧
    read config "scheduler" "gamma" = Ok gamma ∧
    read_entry config "loss_functions" "nllLoss" "output" = Ok output_for_loss ∧
    let model := if bool_decide (device_count cuda > 1)
                 then DataParallelModel plain else plain in
    let optimizer := Adam model lr weight_decay in
    r = {| runner_device := device_name cuda;
           runner_model := model;
           runner_optimizer := optimizer;
           runner_scheduler := StepLR optimizer step_size gamma;
           runner_loss_function :=
             if bool_decide (device_count cuda > 1)
             then DataParallelCriterion nll_loss else nll_loss;
           runner_output_for_loss := output_for_loss |}.
Proof.
  unfold script. intros (model & (plain & Hplain & ->)%setup_model & Hrest)%bind_ok.
  apply bind_ok in Hrest as (optimizer & Hoptimizer & Hrest).
  apply select_optimizer_ok in Hoptimizer as (_ & lr & weight_decay & Hlr & Hwd & ->).
  apply bind_ok in Hrest as (scheduler & Hscheduler & Hrunner).
  apply make_scheduler_ok in Hscheduler as (step_size & gamma & Hstep & Hgamma & ->).
  apply make_runner_ok in Hrunner as (_ & output & Houtput & ->).
  by exists plain, lr, weight_decay, step_size, gamma, output.
Qed.



(** C7: in the runner the script builds, the model is wrapped with
    DataParallelModel exactly when more than one CUDA device is available,
    and so is the loss function with DataParallelCriterion; with at most one
    device both are the plain model and [F.nll_loss]. *)
Theorem wrapping_iff_several_devices w cuda config r :
  script w cuda config = Ok r →
  (wrapped_model (runner_model r) ↔ device_count cuda > 1) ∧
  (wrapped_criterion (runner_loss_function r) ↔ device_count cuda > 1) ∧
  ∃ plain, plain_model config = Ok plain ∧
    (device_count cuda > 1 →
       runner_model r = DataParallelModel plain ∧
       runner_loss_function r = DataParallelCriterion nll_loss) ∧
    (device_count cuda ≤ 1 →
       runner_model r = plain ∧ runner_loss_function r = nll_loss).
Proof.
  intros (plain & lr & weight_decay & step_size & gamma & output &
          Hplain & _ & _ & _ & _ & _ & ->)%script_ok_inv. simpl.
  apply plain_model_not_wrapped in Hplain as Hnot.
  unfold wrapped_criterion. case_bool_decide as Hn.
  - split; [split; [done|by eexists]|]. split; [split; [done|by eexists]|].
    exists plain. repeat split; try done; lia.
  - split; [split; [done|lia]|]. split; [split; [by intros [c' ?]|lia]|].
    exists plain. repeat split; try done; lia.
Qed.

End DidMainFacts.

(** ** com_voice_speech_corpus5.py: [map_to_array] *)

Module MapToArrayFacts.
Import Corpus PyFacts PreprocessingFacts.

Lemma split_no_sep sep s : has_char sep s = false → split sep s = [s].
Proof.
  induction s as [|c s IH]; [done|]. simpl.
  intros [Hc Hs]%orb_false_iff. rewrite Hc. by rewrite IH.
Qed.

Lemma split_app sep a b :
  has_char sep a = false → split sep (a +:+ String sep b) = a :: split sep b.
Proof.
  induction a as [|c a IH]; simpl.
  - intros _. by rewrite Ascii.eqb_refl.
  - intros [Hc Ha]%orb_false_iff. rewrite Hc. by rewrite IH.
Qed.

Lemma split_segment start stop :
  has_char "_" start = false → has_char "_" stop = false →
  split "_" (start +:+ "_" +:+ stop) = [start; stop].
Proof.
  intros Hstart Hstop.
  change (start +:+ "_" +:+ stop) with (start +:+ String "_" stop).
  by rewrite split_app, split_no_sep.
Qed.

(** On a segment "<start>_<stop>", the two bounds reach [sf.read] as the
    strings cut out of the segment, not as frame numbers. *)
Lemma map_to_array_passes_strings libs batch start stop :
  has_char "_" start = false → has_char "_" stop = false →
  batch !! "segment" = Some (PyStr (start +:+ "_" +:+ stop)) →
  map_to_array libs batch =
    file ← getitem batch "file";
    r ← Audio.sf_read libs file (PyStr start) (PyStr stop);
    Ok (<["speech" := PyArr r.1]> batch).
Proof.
  intros Hstart Hstop Hseg. unfold map_to_array.
  rewrite (getitem_Some _ _ _ Hseg), bind_Ok. cbn [as_str]. rewrite bind_Ok.
  rewrite split_segment by done. cbn [unpack2]. rewrite bind_Ok.
  destruct (getitem batch "file") as [file|e]; [|done]. rewrite !bind_Ok.
  by destruct (Audio.sf_read _ _ _ _) as [[data rate]|e].
Qed.

(** soundfile resolves the bounds as slice indices, so it never returns
    frames for a bound that is a string. *)
Lemma soundfile_read_str_start disk file start stop :
  Audio.soundfile_read disk file (PyStr start) stop = Raise TypeError ∨
  Audio.soundfile_read disk file (PyStr start) stop = Raise OSError.
Proof.
  unfold Audio.soundfile_read. destruct file; eauto.
  destruct (disk !! s) as [[frames rate]|]; eauto.
Qed.

Lemma map_to_array_never_splices disk torchaudio_load librosa_resample
    batch start stop :
  has_char "_" start = false → has_char "_" stop = false →
  batch !! "segment" = Some (PyStr (start +:+ "_" +:+ stop)) →
  is_ok (map_to_array {| Audio.sf_read := Audio.soundfile_read disk;
                         Audio.torchaudio_load := torchaudio_load;
                         Audio.librosa_resample := librosa_resample |} batch)
    = false.
Proof.
  intros Hstart Hstop Hseg.
  rewrite (map_to_array_passes_strings _ _ start stop) by done.
  destruct (getitem batch "file") as [file|e]; [|done]. rewrite bind_Ok. simpl.
  by destruct (soundfile_read_str_start disk file start (PyStr stop)) as [-> | ->].
Qed.

(** C2: on the record [{"file": "a.wav", "segment": "1_4"}], with "a.wav" an
    audio file of six frames, [map_to_array] raises TypeError instead of
    returning the record with frames 1 to 4 under "speech". *)
Theorem map_to_array_segment_type_error :
  map_to_array Inputs.libs Inputs.segment_record = Raise TypeError.
Proof. vm_compute. reflexivity. Qed.

(** Read with the integer bounds the segment spells, the same file gives
    the three frames the record asks for. *)
Example soundfile_read_int_bounds :
  Audio.soundfile_read Inputs.disk (PyStr "a.wav") (PyInt 1) (PyInt 4)
  = Ok ([2 # 1; 3 # 1; 4 # 1]%Q, 16000).
Proof. vm_compute. reflexivity. Qed.

End MapToArrayFacts.

(** ** com_voice_speech_corpus5.py: [_generate_examples] *)

Module GeneratorFacts.
Import Corpus PyFacts.

(** *** The shuffle permutes *)

Lemma insert_Permutation_cons {A} (l : list A) i a b :
  l !! i = Some b → b :: <[i := a]> l ≡ₚ a :: l.
Proof.
  revert i. induction l as [|x l IH]; intros [|i] Hi; simplify_eq/=.
  - apply perm_swap.
  - rewrite perm_swap. rewrite (IH i Hi). apply perm_swap.
Qed.

Lemma swap_inserts_Permutation {A} (x : list A) i j xi xj :
  x !! i = Some xi → x !! j = Some xj →
  <[j := xi]> (<[i := xj]> x) ≡ₚ x.
Proof.
  revert i j. induction x as [|a x IH]; intros [|i] [|j] Hi Hj; simplify_eq/=.
  - done.
  - by apply insert_Permutation_cons.
  - by apply insert_Permutation_cons.
  - f_equiv. by apply IH.
Qed.

Lemma swap_ok {A} (x : list A) i j :
  (i < length x)%nat → (j < length x)%nat →
  ∃ x', swap x i j = Ok x' ∧ x' ≡ₚ x.
Proof.
  intros [xi Hi]%lookup_lt_is_Some_2 [xj Hj]%lookup_lt_is_Some_2.
  unfold swap. rewrite Hi, Hj. eexists. split; [done|].
  by apply swap_inserts_Permutation.
Qed.

Section shuffle.
Context `{PyRandom}.

Lemma shuffle_loop_ok {A} i g (x : list A) :
  (i < length x)%nat ∨ i = 0%nat →
  ∃ x', shuffle_loop i g x = Ok x' ∧ x' ≡ₚ x.
Proof.
  revert g x. induction i as [|i IH]; intros g x Hi; [by exists x|].
  destruct Hi as [Hi|]; [|done]. cbn [shuffle_loop].
  pose proof (randbelow_lt g (S i + 1)) as Hj.
  destruct (randbelow g (S i + 1)) as [j g']. cbn [fst] in Hj.
  destruct (swap_ok x (S i) j) as (x' & -> & Hx'); [lia..|].
  rewrite bind_Ok.
  destruct (IH g' x') as (x'' & -> & Hx'').
  { left. rewrite Hx'. lia. }
  exists x''. split; [done|]. by rewrite Hx''.
Qed.

Lemma shuffle_ok {A} g (x : list A) :
  ∃ x', shuffle g x = Ok x' ∧ x' ≡ₚ x.
Proof. apply shuffle_loop_ok. destruct x; simpl; [by right | left; lia]. Qed.

End shuffle.

(** *** The two loops collect the selected files *)

Lemma scan_step wav_dir c (l : list string) paths labls :
  foldl (fun '(paths, labls) file =>
           if endswith file ".mp3"
           then (paths ++ [wav_path wav_dir c file], labls ++ [c])
           else (paths, labls))
        (paths, labls) l =
  (paths ++ (entry_of wav_dir <$> ((fun f => (c, f)) <$>
              filter (fun f => endswith f ".mp3" = true) l)).*1,
   labls ++ (entry_of wav_dir <$> ((fun f => (c, f)) <$>
              filter (fun f => endswith f ".mp3" = true) l)).*2).
Proof.
  revert paths labls. induction l as [|f l IH]; intros paths labls; cbn [foldl].
  - rewrite filter_nil. cbn [fmap list_fmap]. by rewrite !app_nil_r.
  - rewrite filter_cons. destruct (endswith f ".mp3") eqn:Hf.
    + rewrite decide_True by done. rewrite IH. rewrite !fmap_cons.
      by rewrite <- !app_assoc.
    + rewrite decide_False by done. apply IH.
Qed.

Lemma scan_dirs_acc wav_dir listing0 child entries paths labls :
  foldl (fun acc c =>
           acc ← acc;
           if os_path_isdir (resolve (Dir listing0 child) c) then
             files ← os_listdir (resolve (Dir listing0 child) c);
             Ok (scan_files wav_dir c files acc)
           else Ok acc)
        (Ok (paths, labls)) entries =
  Ok (paths ++ (entry_of wav_dir <$> selected_files (Dir entries child)).*1,
      labls ++ (entry_of wav_dir <$> selected_files (Dir entries child)).*2).
Proof.
  revert paths labls. induction entries as [|c entries IH]; intros paths labls.
  - simpl. by rewrite !app_nil_r.
  - cbn [foldl]. rewrite bind_Ok. cbn [resolve selected_files] in *.
    rewrite bind_cons, !fmap_app.
    destruct (child c) as [|files sub]; cbn [os_path_isdir os_listdir].
    + by rewrite IH.
    + rewrite bind_Ok. unfold scan_files. rewrite scan_step, IH.
      by rewrite <- !app_assoc.
Qed.

Lemma scan_dirs_selected wav_dir listing child :
  scan_dirs wav_dir (Dir listing child) listing =
  Ok ((entry_of wav_dir <$> selected_files (Dir listing child)).*1,
      (entry_of wav_dir <$> selected_files (Dir listing child)).*2).
Proof. unfold scan_dirs. by rewrite scan_dirs_acc. Qed.

(** *** From the shuffled pairs to the yielded items *)

Lemma indexed_items {B} (F : nat → string → string → B) (data : list (string * string)) :
  (fun i => F i (data.*1 !!! i) (data.*2 !!! i)) <$> seq 0 (length data.*1)
  = imap (fun i pl => F i pl.1 pl.2) data.
Proof.
  apply list_eq. intros i. rewrite list_lookup_fmap, list_lookup_imap, length_fmap.
  destruct (data !! i) as [[path labl]|] eqn:Hi.
  - rewrite lookup_seq_lt by (by eapply lookup_lt_Some). simpl.
    rewrite (list_lookup_total_correct data.*1 i path)
      by (by rewrite list_lookup_fmap, Hi).
    by rewrite (list_lookup_total_correct data.*2 i labl)
      by (by rewrite list_lookup_fmap, Hi).
  - rewrite lookup_seq_ge; [done|]. by apply lookup_ge_None.
Qed.

Section generator.
Context `{PyRandom}.

(** With at least one selected file, the items are the selected files'
    (path, label) pairs in the order the shuffle leaves them, numbered
    from 0. *)
Lemma collect_examples_ok listing child g archive_path :
  selected_files (Dir listing child) ≠ [] →
  ∃ data,
    data ≡ₚ entry_of archive_path <$> selected_files (Dir listing child) ∧
    collect_examples {| tree := Dir listing child; global_random := g |} archive_path
    = Ok (imap (fun i pl => (str i, {| file := pl.1; label := pl.2 |})) data).
Proof.
  intros Hsel. unfold collect_examples. cbn [tree os_listdir]. rewrite bind_Ok.
  rewrite scan_dirs_selected, bind_Ok, zip_fst_snd.
  destruct (shuffle_ok (Random 4)
              (entry_of archive_path <$> selected_files (Dir listing child)))
    as (data & -> & Hperm).
  rewrite bind_Ok. exists data. split; [done|].
  destruct data as [|d data].
  { apply Permutation_nil_l, eq_sym, fmap_nil_inv in Hperm. done. }
  cbn [unzip_star]. rewrite bind_Ok.
  by rewrite (indexed_items (fun i p l => (str i, {| file := p; label := l |}))).
Qed.

(** With none, unpacking the transposed list fails before anything is
    yielded. *)
Lemma collect_examples_empty listing child g archive_path :
  selected_files (Dir listing child) = [] →
  collect_examples {| tree := Dir listing child; global_random := g |} archive_path
  = Raise ValueError.
Proof.
  intros Hsel. unfold collect_examples. cbn [tree os_listdir]. rewrite bind_Ok.
  by rewrite scan_dirs_selected, bind_Ok, zip_fst_snd, Hsel.
Qed.

Lemma generate_examples_finished listing child g archive_path :
  finished (_generate_examples {| tree := Dir listing child; global_random := g |}
              archive_path)
  = if decide (selected_files (Dir listing child) = [])
    then Raise ValueError else Ok ().
Proof.
  unfold _generate_examples. case_decide as Hsel.
  - by rewrite collect_examples_empty.
  - by destruct (collect_examples_ok listing child g archive_path Hsel)
      as (data & _ & ->).
Qed.


(** *** Runs over the same listings *)

Lemma scan_dirs_same wav_dir t1 t2 entries :
  (∀ c, c ∈ entries →
     os_path_isdir (resolve t1 c) = os_path_isdir (resolve t2 c) ∧
     os_listdir (resolve t1 c) = os_listdir (resolve t2 c)) →
  scan_dirs wav_dir t1 entries = scan_dirs wav_dir t2 entries.
Proof.
  unfold scan_dirs. generalize (Ok ([], []) : result (list string * list string)).
  induction entries as [|c entries IH]; intros acc Hsame; [done|].
  cbn [foldl]. destruct (Hsame c) as [-> ->]; [left|].
  apply IH. intros c' Hc'. apply Hsame. by right.
Qed.

(** C8: two runs whose trees have the same listings yield the same items
    in the same order, and end the same way, whatever else differs between
    them (the files behind the names, and the state of the process-wide
    generator, which the shuffle does not consult as it is seeded with 4). *)
Theorem generate_examples_deterministic (r1 r2 : run) archive_path :
  same_listing (tree r1) (tree r2) →
  _generate_examples r1 archive_path = _generate_examples r2 archive_path.
Proof.
  intros [Hroot Hsub]. unfold _generate_examples, collect_examples.
  rewrite <- Hroot.
  destruct (os_listdir (tree r1)) as [entries|e] eqn:Hentries; [|done].
  rewrite !bind_Ok.
  by rewrite (scan_dirs_same archive_path (tree r1) (tree r2) entries)
    by (intros c Hc; by apply (Hsub entries)).
Qed.

End generator.

End GeneratorFacts.

(** * Further properties of the corpus builder *)

Module CorpusEdgeFacts.
Import Corpus PyFacts GeneratorFacts.

(** *** How the generator ends *)

(** X1: over a directory that can be listed, as can its subdirectories:
    when no file is selected (no entry ending in ".mp3" among the first 4000
    entries of any immediate subdirectory) the generator yields nothing and
    ends with ValueError, the transposed list being empty and so not
    unpackable into two names; when some file is selected it ends
    normally. *)
Theorem generate_examples_outcome `{PyRandom} (r : run) archive_path listing child :
  tree r = Dir listing child →
  (selected_files (tree r) = [] →
   _generate_examples r archive_path =
     {| yielded := []; finished := Raise ValueError |}) ∧
  (selected_files (tree r) ≠ [] →
   finished (_generate_examples r archive_path) = Ok ()).
Proof.
  destruct r as [t g]. cbn [tree]. intros ->. split; intros Hsel.
  - unfold _generate_examples. by rewrite collect_examples_empty.
  - rewrite generate_examples_finished. by rewrite decide_False.
Qed.

(** *** At most 4000 examples per label *)

Lemma yielded_examples_Permutation `{PyRandom} (r : run) archive_path :
  (yielded (_generate_examples r archive_path)).*2
    ≡ₚ example_of archive_path <$> selected_files (tree r).
Proof.
  destruct r as [[|listing child] g]; [done|]. unfold _generate_examples.
  destruct (decide (selected_files (Dir listing child) = [])) as [Hsel|Hsel].
  - cbn [tree]. rewrite collect_examples_empty by done. by rewrite Hsel.
  - destruct (collect_examples_ok listing child g archive_path Hsel)
      as (data & Hperm & ->).
    cbn [tree yielded]. rewrite fmap_imap.
    rewrite (imap_ext _ (const (fun pl => {| file := pl.1; label := pl.2 |})))
      by done.
    rewrite imap_const, Hperm, <- list_fmap_compose.
    apply reflexive_eq, list_fmap_ext. by intros i [c f] _.
Qed.

Lemma length_filter_fmap {A B} (f : A → B) (P : B → Prop)
    `{∀ y, Decision (P y)} (l : list A) :
  length (filter P (f <$> l)) = length (filter (fun x => P (f x)) l).
Proof.
  induction l as [|x l IH]; [done|]. rewrite fmap_cons, !filter_cons.
  destruct (decide (P (f x))); simpl; lia.
Qed.

Section per_label.
Context (child : string → node) (c : string).

Let files_of (c' : string) : list (string * string) :=
  match child c' with
  | Dir files _ =>
      (fun f => (c', f)) <$> filter (fun f => endswith f ".mp3" = true) (take 4000 files)
  | File => []
  end.

Lemma files_of_label c' :
  filter (fun cf : string * string => cf.1 = c) (files_of c') =
    if decide (c' = c) then files_of c' else [].
Proof.
  unfold files_of. destruct (child c') as [|files sub]; [by case_decide|].
  induction (filter _ (take 4000 files)) as [|f l IH]; [by case_decide|].
  rewrite fmap_cons, filter_cons, IH. simpl. by repeat case_decide.
Qed.

Lemma length_files_of c' : (length (files_of c') ≤ 4000)%nat.
Proof.
  unfold files_of. destruct (child c') as [|files sub]; simpl; [lia|].
  rewrite length_fmap. etrans; [apply length_filter|].
  rewrite length_take. lia.
Qed.

Lemma selected_other_labels listing :
  c ∉ listing →
  filter (fun cf : string * string => cf.1 = c) (listing ≫= files_of) = [].
Proof.
  induction listing as [|c' listing IH]; intros Hc; [done|].
  apply not_elem_of_cons in Hc as [Hne Hc].
  rewrite bind_cons, filter_app, files_of_label, IH by done.
  by rewrite decide_False by done.
Qed.

Lemma selected_per_label listing :
  NoDup listing →
  (length (filter (fun cf : string * string => cf.1 = c) (listing ≫= files_of))
     ≤ 4000)%nat.
Proof.
  induction 1 as [|c' listing Hnotin Hnodup IH]; [simpl; lia|].
  rewrite bind_cons, filter_app, length_app, files_of_label.
  case_decide as Hc.
  - subst c'. rewrite selected_other_labels by done.
    pose proof (length_files_of c). simpl. lia.
  - simpl. lia.
Qed.

End per_label.

(** X2: when the root lists each name once, no label is given to more
    than 4000 of the yielded examples. *)
Theorem at_most_4000_examples_per_label `{PyRandom} (r : run) archive_path
    listing child c :
  tree r = Dir listing child →
  NoDup listing →
  (length (filter (fun e => label e = c)
             (yielded (_generate_examples r archive_path)).*2) ≤ 4000)%nat.
Proof.
  intros Htree Hnodup.
  rewrite (yielded_examples_Permutation r archive_path), Htree.
  rewrite length_filter_fmap. cbn [example_of label selected_files].
  by apply selected_per_label.
Qed.

(** *** What the walk does not look at *)

Lemma scan_dirs_first_entries wav_dir t1 t2 entries :
  (∀ c, c ∈ entries →
     os_path_isdir (resolve t1 c) = os_path_isdir (resolve t2 c) ∧
     first_entries (resolve t1 c) = first_entries (resolve t2 c)) →
  scan_dirs wav_dir t1 entries = scan_dirs wav_dir t2 entries.
Proof.
  unfold scan_dirs. generalize (Ok ([], []) : result (list string * list string)).
  induction entries as [|c entries IH]; intros acc Hsame; [done|].
  cbn [foldl]. rewrite <- IH by (intros c' Hc'; apply Hsame; by right).
  f_equal. destruct acc as [acc|e]; [|done]. rewrite !bind_Ok.
  destruct (Hsame c) as [Hdir Hfirst]; [left|]. rewrite <- Hdir.
  destruct (os_path_isdir (resolve t1 c)); [|done].
  unfold first_entries in Hfirst.
  destruct (os_listdir (resolve t1 c)) as [files1|e1],
           (os_listdir (resolve t2 c)) as [files2|e2];
    simpl in Hfirst; try done.
  - rewrite !bind_Ok. unfold scan_files. injection Hfirst as Hfirst.
    by rewrite Hfirst.
  - rewrite !bind_Raise. congruence.
Qed.

(** X3: the generator looks at the root listing, at which of its entries
    are directories and at the first 4000 entries of each of these, and at
    nothing else: two runs that agree on these have the same outcome,
    whatever lies past the 4000th entry or deeper in the tree. *)
Theorem generate_examples_ignores_the_rest `{PyRandom} (r1 r2 : run) archive_path :
  same_first_entries (tree r1) (tree r2) →
  _generate_examples r1 archive_path = _generate_examples r2 archive_path.
Proof.
  intros [Hroot Hsub]. unfold _generate_examples, collect_examples.
  rewrite <- Hroot.
  destruct (os_listdir (tree r1)) as [entries|e] eqn:Hentries; [|done].
  rewrite !bind_Ok.
  by rewrite (scan_dirs_first_entries archive_path (tree r1) (tree r2) entries)
    by (intros c Hc; by apply (Hsub entries)).
Qed.

End CorpusEdgeFacts.

(** * Further properties of [map_to_array] *)

Module SegmentFacts.
Import Corpus PyFacts PreprocessingFacts MapToArrayFacts.

Lemma split_nonempty sep s : split sep s ≠ [].
Proof.
  destruct s as [|c s]; [done|]. simpl.
  destruct (Ascii.eqb c sep); [done|]. by destruct (split sep s).
Qed.

Lemma length_split sep s : length (split sep s) = S (count_char sep s).
Proof.
  induction s as [|c s IH]; [done|]. simpl.
  destruct (Ascii.eqb c sep); simpl; [by rewrite IH|].
  pose proof (split_nonempty sep s). by destruct (split sep s).
Qed.

Lemma count_char_0 sep s : count_char sep s = 0%nat ↔ has_char sep s = false.
Proof.
  induction s as [|c s IH]; [done|]. simpl.
  destruct (Ascii.eqb c sep); simpl; [split; [lia|done]|done].
Qed.

Lemma count_char_1 sep s :
  count_char sep s = 1%nat →
  ∃ a b, s = a +:+ String sep b ∧ has_char sep a = false ∧ has_char sep b = false.
Proof.
  induction s as [|c s IH]; [done|]. simpl.
  destruct (Ascii.eqb_spec c sep) as [->|Hne]; simpl.
  - intros [= Hs%count_char_0]. by exists EmptyString, s.
  - intros (a & b & -> & Ha & Hb)%IH. exists (String c a), b.
    split; [done|]. split; [|done]. simpl. rewrite Ha.
    by destruct (Ascii.eqb_spec c sep).
Qed.

(** X4: a segment with no underscore, or with more than one, makes
    [map_to_array] fail with ValueError when the split is unpacked, before
    the file is looked at; a segment with exactly one underscore is cut at
    it, and the two pieces are handed to [sf.read] as strings. *)
Theorem map_to_array_segment_shape libs batch segment :
  batch !! "segment" = Some (PyStr segment) →
  (count_char "_" segment ≠ 1%nat → map_to_array libs batch = Raise ValueError) ∧
  (count_char "_" segment = 1%nat →
   ∃ start stop, segment = start +:+ "_" +:+ stop ∧
     map_to_array libs batch =
       file ← getitem batch "file";
       r ← Audio.sf_read libs file (PyStr start) (PyStr stop);
       Ok (<["speech" := PyArr r.1]> batch)).
Proof.
  intros Hseg. split.
  - intros Hcount. unfold map_to_array.
    rewrite (getitem_Some _ _ _ Hseg), bind_Ok. cbn [as_str]. rewrite bind_Ok.
    pose proof (length_split "_" segment) as Hlen.
    destruct (split "_" segment) as [|a [|b [|c pieces]]]; simpl in Hlen; try done.
    lia.
  - intros (start & stop & -> & Hstart & Hstop)%count_char_1.
    exists start, stop. split; [done|].
    by apply map_to_array_passes_strings.
Qed.

End SegmentFacts.

(** * Further properties of the collator and of the metrics *)

Module LabelFacts.
Import RunClassifier PyFacts CollatorFacts.

Lemma comprehension_inv {A B} (f : A → result B) l ys :
  comprehension f l = Ok ys → Forall2 (fun x y => f x = Ok y) l ys.
Proof.
  revert ys. induction l as [|x l IH]; intros ys; simpl.
  - intros [= <-]. constructor.
  - intros (y & Hy & (ys' & Hys' & [= <-])%bind_ok)%bind_ok.
    constructor; [done | by apply IH].
Qed.

Lemma comprehension_Forall2 {A B C} (g : B → result C) (h : A → C) l ys :
  Forall2 (fun x y => g y = Ok (h x)) l ys →
  comprehension g ys = Ok (h <$> l).
Proof.
  induction 1 as [|x y l ys Hxy _ IH]; [done|]. simpl.
  by rewrite Hxy, bind_Ok, IH.
Qed.

(** [onehot] returns for the indices of [-n, n), and sets position
    [lbl mod n]. *)
Lemma onehot_row self lbl row :
  onehot self lbl = Ok row →
  - number_of_labels self ≤ lbl < number_of_labels self ∧
  row = <[Z.to_nat (lbl `mod` number_of_labels self) := 1]>
          (list_repeat 0 (number_of_labels self)).
Proof.
  unfold onehot, list_setitem. rewrite length_list_repeat.
  set (n := number_of_labels self).
  case_bool_decide as Hpos; [|case_bool_decide as Hneg]; intros [= <-].
  - split; [lia|]. rewrite Z.mod_small by lia. done.
  - split; [lia|]. do 2 f_equal. rewrite Z2Nat.id by lia.
    apply (Z.mod_unique_pos lbl n (-1) (n + lbl)); lia.
Qed.

Lemma call_label_rows self features b :
  __call__ self features = Ok b →
  Forall2 (fun f row =>
             - number_of_labels self ≤ labels f < number_of_labels self ∧
             row = <[Z.to_nat (labels f `mod` number_of_labels self) := 1]>
                     (list_repeat 0 (number_of_labels self)))
          features (batch_labels b).
Proof.
  unfold __call__. intros (rows & Hrows & (padded & _ & [= <-])%bind_ok)%bind_ok.
  simpl. apply comprehension_inv in Hrows.
  eapply Forall2_impl; [exact Hrows|]. intros f row. apply onehot_row.
Qed.

(** X5: whatever the processor, when the collator returns a batch every
    label lay in [-number_of_labels, number_of_labels), and row [i] of
    ["labels"] is the one-hot vector of class [label mod number_of_labels]:
    a negative label does not raise, it is counted from the last class. *)
Theorem negative_labels_count_from_the_end self features b :
  __call__ self features = Ok b →
  Forall2 (fun f row =>
             - number_of_labels self ≤ labels f < number_of_labels self ∧
             is_one_hot (number_of_labels self)
               (labels f `mod` number_of_labels self) row)
          features (batch_labels b).
Proof.
  intros Hcall. eapply Forall2_impl; [by apply call_label_rows|].
  intros f row [Hrange ->]. split; [done|].
  apply is_one_hot_insert, Z.mod_pos_bound. lia.
Qed.

(** *** Decoding the one-hot rows *)

Lemma argmax_from_zeros m best best_i i :
  0 ≤ best → argmax_from Z.ltb best best_i i (replicate m 0) = best_i.
Proof.
  intros Hbest. revert i. induction m as [|m IH]; intros i; [done|]. simpl.
  destruct (Z.ltb_spec best 0); [lia | apply IH].
Qed.

Lemma argmax_from_skip_zeros a best_i i row :
  argmax_from Z.ltb 0 best_i i (replicate a 0 ++ row)
  = argmax_from Z.ltb 0 best_i (i + a) row.
Proof.
  revert i. induction a as [|a IH]; intros i; simpl.
  - by rewrite Nat.add_0_r.
  - rewrite IH. f_equal. lia.
Qed.

Lemma argmax_one_hot_row (n j : nat) :
  (j < n)%nat → argmax Z.ltb (<[j := 1]> (replicate n 0)) = Ok j.
Proof.
  intros Hj. rewrite insert_replicate_lt by done.
  destruct j as [|j]; simpl.
  - by rewrite argmax_from_zeros.
  - rewrite argmax_from_skip_zeros. simpl. by rewrite argmax_from_zeros.
Qed.

(** X6: on the ["labels"] rows of a batch the collator returned,
    [compute_metrics] decodes by argmax exactly the classes the collator
    encoded, [label mod number_of_labels] for each feature, and scores the
    predictions against these. *)
Theorem compute_metrics_decodes_collated_labels sk label_idx label_names
    self features b logits :
  __call__ self features = Ok b →
  compute_metrics sk label_idx label_names
    {| predictions := logits; label_ids := batch_labels b |}
  = preds ← comprehension (argmax Qltb) logits;
    score sk label_idx label_names
      ((fun f => Z.to_nat (labels f `mod` number_of_labels self)) <$> features)
      preds.
Proof.
  intros Hcall. unfold compute_metrics. cbn [label_ids predictions].
  rewrite (comprehension_Forall2 (argmax Z.ltb)
    (fun f => Z.to_nat (labels f `mod` number_of_labels self))
    features (batch_labels b)).
  { reflexivity. }
  eapply Forall2_impl; [by apply call_label_rows|].
  intros f row [Hrange ->]. unfold list_repeat. apply argmax_one_hot_row.
  pose proof (Z.mod_pos_bound (labels f) (number_of_labels self)). lia.
Qed.

End LabelFacts.

(** * Further properties of the preprocessing *)

Module PipelineFacts.
Import RunClassifier PyFacts PreprocessingFacts.

Lemma store_speech_inv libs batch speech_array sampling_rate batch' :
  store_speech libs batch speech_array sampling_rate = Ok batch' →
  ∃ speech parent,
    batch !! "label" = Some parent ∧
    batch' = <["parent" := parent]>
               (<["sampling_rate" := PyInt 16000]>
                  (<["speech" := PyArr speech]> batch)).
Proof.
  unfold store_speech.
  intros (speech & _ & (parent & Hparent%getitem_ok & [= <-])%bind_ok)%bind_ok.
  exists speech, parent. split; [|done].
  by rewrite !lookup_insert_ne in Hparent.
Qed.

Lemma speech_file_to_array_fn_stores libs window_length batch batch' :
  speech_file_to_array_fn libs window_length batch = Ok batch' →
  ∃ speech_array sampling_rate,
    store_speech libs batch speech_array sampling_rate = Ok batch'.
Proof.
  intros Hok.
  destruct (speech_file_to_array_fn_ok_name _ _ _ _ Hok) as [name Hfile].
  rewrite (speech_file_to_array_fn_name _ _ _ name Hfile) in Hok.
  apply bind_ok in Hok as (bound & _ & (locals & _ & Hstore)%bind_ok). eauto.
Qed.

Lemma returned_record_fields libs window_length batch batch' :
  speech_file_to_array_fn libs window_length batch = Ok batch' →
  ∃ speech parent,
    batch !! "label" = Some parent ∧
    batch' !! "speech" = Some (PyArr speech) ∧
    batch' !! "sampling_rate" = Some (PyInt 16000) ∧
    batch' !! "parent" = Some parent ∧
    ∀ key, key ≠ "speech" → key ≠ "sampling_rate" → key ≠ "parent" →
           batch' !! key = batch !! key.
Proof.
  intros (speech_array & sampling_rate &
          (speech & parent & Hlabel & ->)%store_speech_inv)%speech_file_to_array_fn_stores.
  exists speech, parent. split; [done|]. split; [|split; [|split]].
  - rewrite !lookup_insert_ne by done. by rewrite lookup_insert_eq.
  - rewrite lookup_insert_ne by done. by rewrite lookup_insert_eq.
  - by rewrite lookup_insert_eq.
  - intros key ? ? ?. by rewrite !lookup_insert_ne by done.
Qed.

(** X7: when [speech_file_to_array_fn] returns, the record has an array
    under "speech", 16000 under "sampling_rate" and, under "parent", the
    value the input record had under "label" (which it must have had);
    every other field is as in the input record. *)
Theorem speech_file_to_array_fn_frame libs window_length batch batch' :
  speech_file_to_array_fn libs window_length batch = Ok batch' →
  (∃ speech, batch' !! "speech" = Some (PyArr speech)) ∧
  batch' !! "sampling_rate" = Some (PyInt 16000) ∧
  is_Some (batch !! "label") ∧
  batch' !! "parent" = batch !! "label" ∧
  ∀ key, key ≠ "speech" → key ≠ "sampling_rate" → key ≠ "parent" →
         batch' !! key = batch !! key.
Proof.
  intros (speech & parent & Hlabel & Hspeech & Hrate & Hparent & Hframe)
    %returned_record_fields.
  rewrite Hlabel. eauto 10.
Qed.

(** *** The sampling rate assertion of [prepare_dataset] *)

Lemma remove_dups_singleton (l : list pyval) :
  length (remove_dups l) = 1%nat ↔ ∃ r, l ≠ [] ∧ ∀ x, x ∈ l → x = r.
Proof.
  pose proof (NoDup_remove_dups l) as Hnodup.
  pose proof (elem_of_remove_dups l) as Helem.
  destruct (remove_dups l) as [|a [|a' rest]]; simpl.
  - split; [done|]. intros (r & Hne & _). destruct l as [|x l]; [done|].
    exfalso. eapply elem_of_nil, Helem. left.
  - split; [|done]. intros _. exists a. split.
    + intros ->. by eapply elem_of_nil, Helem; left.
    + intros x Hx%Helem. by apply list_elem_of_singleton in Hx.
  - split; [done|]. intros (r & _ & Hall).
    apply NoDup_cons in Hnodup as [Hnotin _]. destruct Hnotin.
    rewrite (Hall a), <- (Hall a'); [left | |]; apply Helem.
    + right; left.
    + left.
Qed.

Lemma forallb_hashable (l : list pyval) :
  forallb hashable l = true ↔ ∀ a, PyArr a ∉ l.
Proof.
  induction l as [|v l IH]; simpl.
  - split; [|done]. intros _ a Ha. by apply elem_of_nil in Ha.
  - rewrite andb_true_iff, IH. split.
    + intros [Hv Hl] a [<-|Ha]%elem_of_cons; [done|]. by apply (Hl a).
    + intros Hall. split.
      * destruct v as [| | |a]; try done. destruct (Hall a). left.
      * intros a Ha. apply (Hall a). by right.
Qed.

(** X8: a "sampling_rate" column holding an array makes [prepare_dataset]
    raise TypeError when the set is built; otherwise its assertion fails
    exactly when the column is empty or holds two different values. *)
Theorem prepare_dataset_assertion extract batch :
  ((∃ a, PyArr a ∈ col_sampling_rate batch) →
   prepare_dataset extract batch = Passed (Raise TypeError)) ∧
  (prepare_dataset extract batch = AssertionFailed ↔
   (∀ a, PyArr a ∉ col_sampling_rate batch) ∧
   ¬ ∃ r, col_sampling_rate batch ≠ [] ∧ ∀ x, x ∈ col_sampling_rate batch → x = r).
Proof.
  unfold prepare_dataset, py_set.
  rewrite <- remove_dups_singleton, <- forallb_hashable.
  destruct (forallb hashable (col_sampling_rate batch)) eqn:Hhash.
  - split.
    + intros [a Ha]. by destruct (proj1 (forallb_hashable _) Hhash a).
    + case_bool_decide as Hlen; split; [done | by intros [_ ?] | done | done].
  - split; [done|]. split; [done|]. by intros [? _].
Qed.

(** X9: a non-empty batch of records returned by
    [speech_file_to_array_fn] passes the assertion; the feature extractor is
    called on its "speech" column at 16000 Hz, and the "labels" column is
    the "label" field of the records the batch was read from, in order. *)
Theorem prepare_dataset_after_speech_file_to_array_fn libs window_length extract
    records rows :
  records ≠ [] →
  Forall2 (fun record row =>
             speech_file_to_array_fn libs window_length record = Ok row)
          records rows →
  prepare_dataset extract (columns_of rows) =
    Passed (input_values ← extract (col_speech (columns_of rows)) (PyInt 16000);
            Ok {| kept := columns_of rows;
                  col_input_values := input_values;
                  col_labels := (fun record => record !!! "label") <$> records |}).
Proof.
  intros Hne Hrows.
  assert ((fun row : gmap string pyval => row !!! "sampling_rate") <$> rows
          = replicate (length rows) (PyInt 16000)) as Hrate.
  { clear Hne. induction Hrows as [|record row records rows Hrow _ IH]; [done|].
    simpl. f_equal; [|exact IH]. apply lookup_total_correct.
    by apply returned_record_fields in Hrow as (? & ? & _ & _ & ? & _). }
  assert ((fun row : gmap string pyval => row !!! "parent") <$> rows
          = (fun record : gmap string pyval => record !!! "label") <$> records)
    as Hparent.
  { clear Hne Hrate. induction Hrows as [|record row records rows Hrow _ IH]; [done|].
    simpl. f_equal; [|exact IH].
    apply returned_record_fields in Hrow as (speech & parent & Hl & _ & _ & Hp & _).
    by rewrite (lookup_total_correct _ _ _ Hp), (lookup_total_correct _ _ _ Hl). }
  unfold prepare_dataset, py_set, columns_of.
  cbn [col_sampling_rate col_parent col_speech].
  rewrite Hparent, Hrate.
  destruct Hrows as [|record row records rows _ _]; [done|].
  replace (forallb hashable (replicate (length (row :: rows)) (PyInt 16000)))
    with true.
  2:{ symmetry. apply forallb_forall.
      by intros x [-> _]%list_elem_of_In%elem_of_replicate. }
  rewrite bool_decide_true.
  - done.
  - apply remove_dups_singleton. exists (PyInt 16000). split; [done|].
    by intros x [-> _]%elem_of_replicate.
Qed.

End PipelineFacts.

(** * Further properties of the two scripts' [main] *)

Module MainEdgeFacts.
Import RunClassifier PyFacts MainFacts.

(** X10: with the arguments parsed and the output directory listed, [main]
    stops with ValueError, before anything is set up, when the output
    directory exists, training is requested without [overwrite_output_dir],
    no checkpoint is found in the directory and the directory is not empty;
    and checkpoint detection raises ValueError in this case only. *)
Theorem stale_output_dir_is_refused w model_args data_args training_args entries :
  parse_args w = Ok (model_args, data_args, training_args) →
  listdir w (output_dir training_args) = Ok entries →
  (isdir w (output_dir training_args) = true ∧
   do_train training_args = true ∧
   overwrite_output_dir training_args = false ∧
   get_last_checkpoint w (output_dir training_args) = None ∧
   entries ≠ [] →
   main w = Raise ValueError) ∧
  (detect_last_checkpoint w training_args = Raise ValueError →
   isdir w (output_dir training_args) = true ∧
   do_train training_args = true ∧
   overwrite_output_dir training_args = false ∧
   get_last_checkpoint w (output_dir training_args) = None ∧
   entries ≠ []).
Proof.
  intros Hargs Hlist. split.
  - intros (Hdir & Htrain & Hover & Hlast & Hentries).
    unfold main. rewrite Hargs, bind_Ok. unfold main_body, detect_last_checkpoint.
    rewrite Hdir, Htrain, Hover, Hlast, Hlist, bind_Ok. simpl.
    rewrite bool_decide_true; [done|]. destruct entries; simpl; [done|lia].
  - unfold detect_last_checkpoint. rewrite Hlist, bind_Ok.
    destruct (isdir w _), (do_train _), (overwrite_output_dir _); simpl; try done.
    destruct (get_last_checkpoint w _); [done|].
    case_bool_decide as Hlen; [|done]. intros _.
    repeat split. intros ->. simpl in Hlen. lia.
Qed.

Lemma main_calls w model_args data_args training_args calls :
  parse_args w = Ok (model_args, data_args, training_args) →
  main w = Ok calls →
  ∃ last, calls = training w model_args training_args last
                    ++ evaluation training_args.
Proof.
  intros Hargs Hmain. unfold main in Hmain. rewrite Hargs, bind_Ok in Hmain.
  apply bind_ok in Hmain as (last & _ & ([] & _ & [= <-])%bind_ok). eauto.
Qed.

Local Ltac no_member H :=
  repeat (apply elem_of_cons in H as [H | H]; [discriminate H|]);
  by apply elem_of_nil in H.

Local Ltac walk_calls :=
  simplify_eq/=;
  repeat match goal with
         | H : (_ :: _) !! ?i = Some _ |- _ => destruct i; simplify_eq/=
         end.

(** X11: a run of [main] that completes has called [trainer.train] exactly
    when [do_train] is set, and then once, and [trainer.evaluate] exactly
    when [do_eval] is set, and then after the training call. *)
Theorem main_trains_then_evaluates w model_args data_args training_args calls :
  parse_args w = Ok (model_args, data_args, training_args) →
  main w = Ok calls →
  ((∃ c, Train c ∈ calls) ↔ do_train training_args = true) ∧
  (Evaluate ∈ calls ↔ do_eval training_args = true) ∧
  (∀ i j c c', calls !! i = Some (Train c) → calls !! j = Some (Train c') → i = j) ∧
  (∀ i j c, calls !! i = Some (Train c) → calls !! j = Some Evaluate → (i < j)%nat).
Proof.
  intros Hargs Hmain.
  destruct (main_calls _ _ _ _ _ Hargs Hmain) as [last ->].
  unfold training, evaluation. split; [|split; [|split]].
  - destruct (do_train training_args); simpl.
    + split; [done|]. intros _. eexists. left.
    + split; [|done]. intros [c Hin].
      destruct (do_eval training_args); no_member Hin.
  - destruct (do_eval training_args).
    + split; [done|]. intros _. apply elem_of_app. right. left.
    + split; [|done]. rewrite app_nil_r. intros Hin.
      destruct (do_train training_args); no_member Hin.
  - intros i j c c' Hi Hj.
    destruct (do_train training_args), (do_eval training_args); simpl in *;
      walk_calls; done.
  - intros i j c Hi Hj.
    destruct (do_train training_args), (do_eval training_args); simpl in *;
      walk_calls; lia.
Qed.

End MainEdgeFacts.

Module DidMainEdgeFacts.
Import DidMain PyFacts DidMainFacts.

(** X12: the parts of the runner the script builds fit together: the
    scheduler steps the runner's own optimizer, with the configured step
    size and gamma; that optimizer holds the parameters of the runner's own
    model, wrapped or not; the output read for the loss is the one
    configured for "nllLoss"; the device is "cuda" exactly when CUDA is
    available. *)
Theorem runner_parts_fit_together w cuda config r :
  script w cuda config = Ok r →
  (∃ step_size gamma,
     read config "scheduler" "step_size" = Ok step_size ∧
     read config "scheduler" "gamma" = Ok gamma ∧
     runner_scheduler r = StepLR (runner_optimizer r) step_size gamma) ∧
  (∃ lr weight_decay, runner_optimizer r = Adam (runner_model r) lr weight_decay) ∧
  read_entry config "loss_functions" "nllLoss" "output"
    = Ok (runner_output_for_loss r) ∧
  runner_device r = (if is_available cuda then "cuda" else "cpu").
Proof.
  intros (plain & lr & weight_decay & step_size & gamma & output &
          _ & _ & _ & Hstep & Hgamma & Houtput & ->)%script_ok_inv. simpl.
  repeat split; eauto.
Qed.

(** X13: once the steps before the selection have completed, an optimizer
    other than "adam" ends the script with the message naming the
    optimizer, whatever the loss function; once the optimizer and the
    scheduler are built as well, a loss function other than "nllLoss" ends
    it with the message naming the loss function. *)
Theorem exit_message_names_the_unsupported w cuda config model :
  setup w cuda config = Ok model →
  (∀ name,
     read config "general" "optimizer" = Ok (JStr name) →
     name ≠ "adam" →
     script w cuda config =
       Raise (SystemExit (ExitMsg ("you must specify optimizer for " +:+ name)))) ∧
  (∀ optimizer scheduler name,
     select_optimizer w config model = Ok optimizer →
     make_scheduler w config optimizer = Ok scheduler →
     read config "general" "loss_function" = Ok (JStr name) →
     name ≠ "nllLoss" →
     script w cuda config =
       Raise (SystemExit (ExitMsg
         ("you must specify loss_function for " +:+ name)))).
Proof.
  intros Hsetup. split.
  - intros name. by apply (script_optimizer_exit _ _ _ model).
  - intros optimizer scheduler name. by apply script_loss_exit.
Qed.

End DidMainEdgeFacts.

(** * The properties on concrete inputs *)

Module OnInputs.
Import RunClassifier Inputs.

(** *** Running the embedding *)

Example collator_on_two_features :
  __call__ collator5 two_features =
  Ok {| batch_input_values :=
          [ [1 # 2; 1 # 4; 1 # 8; 0; 0; 0; 0; 0];
            [3 # 4; 1 # 1; 1 # 3; 1 # 5; 1 # 7; 0; 0; 0] ]%Q;
        batch_labels := [ [0; 0; 1; 0; 0]; [1; 0; 0; 0; 0] ] |}.
Proof. vm_compute. reflexivity. Qed.

Example collator_on_label_5 :
  __call__ collator5 (two_features ++ [feature_label_5]) = Raise IndexError.
Proof. vm_compute. reflexivity. Qed.

Example onehot_counts_from_the_end :
  onehot collator5 (-1) = Ok [0; 0; 0; 0; 1] ∧
  onehot collator5 (-5) = Ok [1; 0; 0; 0; 0] ∧
  onehot collator5 (-6) = Raise IndexError.
Proof. repeat split; vm_compute; reflexivity. Qed.

Example wav_record_speech :
  (speech_file_to_array_fn libs 10 wav_record ≫= fun b => getitem b "speech")
  = Ok (PyArr six_frames) ∧
  (speech_file_to_array_fn libs 10 wav_record ≫= fun b => getitem b "parent")
  = Ok (PyInt 3).
Proof. split; vm_compute; reflexivity. Qed.

Example mp3_record_truncated :
  (speech_file_to_array_fn libs 0 mp3_record ≫= fun b => getitem b "speech")
  = Ok (PyArr []).
Proof. vm_compute. reflexivity. Qed.

Example flac_record_unbound :
  speech_file_to_array_fn libs 10 flac_record = Raise (UnboundLocalError "speech_array").
Proof. vm_compute. reflexivity. Qed.

Example main_with_checkpoint :
  main world_with_checkpoint =
  Ok [Train (Some "out/checkpoint-500"); SaveModel; LogMetrics "train";
      SaveMetrics "train"; SaveState;
      Evaluate; LogMetrics "eval"; SaveMetrics "eval"].
Proof. vm_compute. reflexivity. Qed.

Example main_without_json :
  main world_without_json = Raise (SystemExit (ExitCode 1)).
Proof. vm_compute. reflexivity. Qed.

Example corpus_examples :
  Corpus._generate_examples corpus_run "/data" =
  {| Corpus.yielded :=
       [ ("0", {| Corpus.file := "/data/NLD/b.mp3"; Corpus.label := "NLD" |});
         ("1", {| Corpus.file := "/data/NLD/a.mp3"; Corpus.label := "NLD" |});
         ("2", {| Corpus.file := "/data/ESP/c.mp3"; Corpus.label := "ESP" |}) ];
     Corpus.finished := Ok () |}.
Proof. vm_compute. reflexivity. Qed.

Example empty_corpus :
  Corpus._generate_examples
    {| Corpus.tree := empty_tree; Corpus.global_random := 1 |} "/data" =
  {| Corpus.yielded := []; Corpus.finished := Raise ValueError |}.
Proof. vm_compute. reflexivity. Qed.

Example collator_on_window_0 :
  __call__ collator_window_0 two_features = Raise ZeroDivisionError.
Proof. vm_compute. reflexivity. Qed.

Example script_on_four_gpus :
  DidMain.script working_machine four_gpus (config_with "adam" "nllLoss") =
  let model :=
    DidMain.DataParallelModel
      (DidMain.DidModel (DidMain.JStr "models/xlsr_53_56k.pt") (DidMain.JInt 5)
         (DidMain.JBool true)) in
  let optimizer :=
    DidMain.Adam model (DidMain.JFloat (1 # 1000)) (DidMain.JFloat (1 # 10000)) in
  Ok {| DidMain.runner_device := "cuda";
        DidMain.runner_model := model;
        DidMain.runner_optimizer := optimizer;
        DidMain.runner_scheduler :=
          DidMain.StepLR optimizer (DidMain.JInt 20) (DidMain.JFloat (1 # 10));
        DidMain.runner_loss_function :=
          DidMain.DataParallelCriterion DidMain.nll_loss;
        DidMain.runner_output_for_loss := DidMain.JStr "log_softmax" |}.
Proof. vm_compute. reflexivity. Qed.

Example script_on_sgd :
  DidMain.script working_machine one_gpu (config_with "sgd" "nllLoss") =
  Raise (SystemExit (ExitMsg "you must specify optimizer for sgd")).
Proof. vm_compute. reflexivity. Qed.

Example script_without_batch_size :
  DidMain.script working_machine one_gpu (config_without_batch_size "sgd" "nllLoss") =
  Raise (KeyError "batch_size").
Proof. vm_compute. reflexivity. Qed.

Example main_on_working_machine :
  DidMain.main working_machine one_gpu =
  DidMain.script working_machine one_gpu (config_with "adam" "nllLoss").
Proof. vm_compute. reflexivity. Qed.

(** *** The theorems at these inputs *)

Lemma collator_pads_and_one_hot_encodes_witness :
  ∃ b, __call__ collator5 two_features = Ok b ∧
    (∃ L, ∀ row, row ∈ batch_input_values b → length row = L) ∧
    length (batch_input_values b) = length two_features ∧
    length (batch_labels b) = length two_features ∧
    ∀ i f, two_features !! i = Some f →
      (∃ row, batch_input_values b !! i = Some row ∧
              input_values f `prefix_of` row) ∧
      (∃ row, batch_labels b !! i = Some row ∧
              is_one_hot (number_of_labels collator5) (labels f) row).
Proof.
  apply CollatorFacts.collator_pads_and_one_hot_encodes.
  - reflexivity.
  - simpl. lia.
  - discriminate.
  - intros f Hf. unfold two_features in Hf.
    apply elem_of_cons in Hf as [-> | Hf]; [simpl; lia|].
    apply elem_of_cons in Hf as [-> | Hf]; [simpl; lia|].
    by apply elem_of_nil in Hf.
Defined.

Lemma onehot_index_error_witness :
  __call__ collator5 (two_features ++ [feature_label_5]) = Raise IndexError ∧
  ((∀ f, f ∈ two_features → onehot collator5 (labels f) ≠ Raise IndexError) ∧
   ∃ rows, __call__ collator5 two_features =
     padded ← pad (processor collator5) (input_values <$> two_features) true
                (max_length collator5) (pad_to_multiple_of collator5);
     Ok {| batch_input_values := padded; batch_labels := rows |}).
Proof.
  split.
  - apply (proj1 (CollatorFacts.onehot_index_error collator5
                    (two_features ++ [feature_label_5])) feature_label_5).
    + apply elem_of_app. right. left.
    + simpl. lia.
  - apply (proj2 (CollatorFacts.onehot_index_error collator5 two_features)).
    intros f Hf. unfold two_features in Hf.
    apply elem_of_cons in Hf as [-> | Hf]; [simpl; lia|].
    apply elem_of_cons in Hf as [-> | Hf]; [simpl; lia|].
    by apply elem_of_nil in Hf.
Defined.

Lemma speech_file_to_array_fn_cases_witness :
  speech_file_to_array_fn libs 10 wav_record =
    Ok (<["parent" := PyInt 3]>
          (<["sampling_rate" := PyInt 16000]>
             (<["speech" := PyArr six_frames]> wav_record))) ∧
  speech_file_to_array_fn libs 0 mp3_record =
    Ok (<["parent" := PyInt 1]>
          (<["sampling_rate" := PyInt 16000]>
             (<["speech" := PyArr []]> mp3_record))) ∧
  speech_file_to_array_fn libs 10 flac_record =
    Raise (UnboundLocalError "speech_array") ∧
  ∃ name, wav_record !! "file" = Some (PyStr name) ∧
          (endswith name ".wav" = true ∨ endswith name ".mp3" = true).
Proof.
  pose proof (PreprocessingFacts.speech_file_to_array_fn_cases libs 10 wav_record)
    as (Hdefined & Hwav).
  pose proof (PreprocessingFacts.speech_file_to_array_fn_cases libs 0 mp3_record)
    as (_ & Hmp3).
  pose proof (PreprocessingFacts.speech_file_to_array_fn_cases libs 10 flac_record)
    as (_ & Hflac).
  destruct (Hwav "a.wav" eq_refl) as (Hwav' & _ & _).
  destruct (Hmp3 "b.mp3" eq_refl) as (_ & Hmp3' & _).
  destruct (Hflac "c.flac" eq_refl) as (_ & _ & Hflac').
  split; [|split; [|split]].
  - apply Hwav'; [reflexivity|].
    exists six_frames, 16000, six_frames, (PyInt 3).
    repeat split; vm_compute; reflexivity.
  - apply Hmp3'; [reflexivity|].
    exists [six_frames], 16000, six_frames, [], (PyInt 1).
    repeat split; vm_compute; reflexivity.
  - apply Hflac'; reflexivity.
  - eapply Hdefined. vm_compute. reflexivity.
Defined.

Lemma main_reads_json_or_exits_witness :
  main world_without_json = Raise (SystemExit (ExitCode 1)) ∧
  main world_with_checkpoint =
    args ← parse_json_file world_with_checkpoint
              (abspath world_with_checkpoint "config.json");
    main_body world_with_checkpoint args.
Proof.
  split.
  - apply (proj1 (MainFacts.main_reads_json_or_exits world_without_json)).
    intros (prog & a & [= _ <-] & Hjson). discriminate Hjson.
  - apply (proj2 (MainFacts.main_reads_json_or_exits world_with_checkpoint)
             "run_classifier.py" "config.json"); reflexivity.
Defined.

Lemma train_resumes_from_detected_checkpoint_witness :
  Some "out/checkpoint-500" =
    resume_point world_with_checkpoint some_args.1.1 some_args.2.
Proof.
  apply (MainFacts.train_resumes_from_detected_checkpoint world_with_checkpoint
           some_args.1.1 some_args.1.2 some_args.2
           [Train (Some "out/checkpoint-500"); SaveModel; LogMetrics "train";
            SaveMetrics "train"; SaveState;
            Evaluate; LogMetrics "eval"; SaveMetrics "eval"]).
  - reflexivity.
  - reflexivity.
  - left.
Defined.


Lemma wrapping_iff_several_devices_witness :
  ∃ r, DidMain.script working_machine four_gpus (config_with "adam" "nllLoss") = Ok r ∧
    (DidMain.wrapped_model (DidMain.runner_model r) ↔
       DidMain.device_count four_gpus > 1) ∧
    (DidMain.wrapped_criterion (DidMain.runner_loss_function r) ↔
       DidMain.device_count four_gpus > 1) ∧
    ∃ plain, DidMain.plain_model (config_with "adam" "nllLoss") = Ok plain ∧
      (DidMain.device_count four_gpus > 1 →
         DidMain.runner_model r = DidMain.DataParallelModel plain ∧
         DidMain.runner_loss_function r =
           DidMain.DataParallelCriterion DidMain.nll_loss) ∧
      (DidMain.device_count four_gpus ≤ 1 →
         DidMain.runner_model r = plain ∧
         DidMain.runner_loss_function r = DidMain.nll_loss).
Proof.
  eexists. split; [vm_compute; reflexivity|].
  apply (DidMainFacts.wrapping_iff_several_devices working_machine four_gpus
           (config_with "adam" "nllLoss")).
  reflexivity.
Defined.


Lemma generate_examples_deterministic_witness :
  Corpus._generate_examples corpus_run "/data"
  = Corpus._generate_examples corpus_run' "/data".
Proof.
  apply GeneratorFacts.generate_examples_deterministic. split; [reflexivity|].
  intros entries c [= <-] Hc.
  apply elem_of_cons in Hc as [-> | Hc]; [by split|].
  apply elem_of_cons in Hc as [-> | Hc]; [by split|].
  apply elem_of_cons in Hc as [-> | Hc]; [by split|].
  by apply elem_of_nil in Hc.
Defined.

(** *** The further properties at these inputs *)

Example long_directories :
  Corpus.yielded (Corpus._generate_examples long_run "/data")
  = Corpus.yielded (Corpus._generate_examples long_run' "/data") ∧
  length (Corpus.yielded (Corpus._generate_examples long_run "/data")) = 4000%nat.
Proof. split; vm_compute; reflexivity. Qed.

Example last_class_collated :
  __call__ collator5 [last_class_feature] = Ok last_class_batch.
Proof. vm_compute. reflexivity. Qed.

Example wav_record_row :
  speech_file_to_array_fn libs 10 wav_record = Ok wav_row.
Proof. vm_compute. reflexivity. Qed.

Example stale_output :
  main world_with_stale_output = Raise ValueError.
Proof. vm_compute. reflexivity. Qed.

Example mixed_sampling_rates :
  prepare_dataset (fun _ _ => Ok [])
    {| col_speech := [PyArr six_frames; PyArr six_frames];
       col_sampling_rate := [PyInt 16000; PyInt 8000];
       col_parent := [PyInt 3; PyInt 1] |}
  = AssertionFailed.
Proof. vm_compute. reflexivity. Qed.

Example unhashable_sampling_rate :
  prepare_dataset (fun _ _ => Ok [])
    {| col_speech := [PyArr six_frames];
       col_sampling_rate := [PyArr [16000 # 1]%Q];
       col_parent := [PyInt 3] |}
  = Passed (Raise TypeError).
Proof. vm_compute. reflexivity. Qed.

Lemma generate_examples_outcome_witness :
  Corpus._generate_examples wav_only_run "/data"
  = {| Corpus.yielded := []; Corpus.finished := Raise ValueError |} ∧
  Corpus.finished (Corpus._generate_examples corpus_run "/data") = Ok ().
Proof.
  split.
  - edestruct (CorpusEdgeFacts.generate_examples_outcome wav_only_run "/data")
      as [Hnone _]; [reflexivity|].
    apply Hnone. reflexivity.
  - edestruct (CorpusEdgeFacts.generate_examples_outcome corpus_run "/data")
      as [_ Hsome]; [reflexivity|].
    apply Hsome. discriminate.
Defined.

Lemma at_most_4000_examples_per_label_witness :
  (length (filter (fun e => Corpus.label e = "NLD")
             (Corpus.yielded (Corpus._generate_examples corpus_run "/data")).*2)
     ≤ 4000)%nat.
Proof.
  eapply CorpusEdgeFacts.at_most_4000_examples_per_label; [reflexivity|].
  repeat (apply NoDup_cons; split;
          [rewrite ?not_elem_of_cons; repeat split;
             (discriminate || apply not_elem_of_nil)|]).
  apply NoDup_nil_2.
Defined.

Lemma generate_examples_ignores_the_rest_witness :
  Corpus._generate_examples long_run "/data"
  = Corpus._generate_examples long_run' "/data".
Proof.
  apply CorpusEdgeFacts.generate_examples_ignores_the_rest.
  split; [reflexivity|]. intros entries c _ _. split; [reflexivity|].
  vm_compute. reflexivity.
Defined.

Lemma map_to_array_segment_shape_witness :
  Corpus.map_to_array libs two_underscores_record = Raise ValueError ∧
  ∃ start stop, "1_4" = start +:+ "_" +:+ stop ∧
    Corpus.map_to_array libs segment_record =
      file ← getitem segment_record "file";
      r ← Audio.sf_read libs file (PyStr start) (PyStr stop);
      Ok (<["speech" := PyArr r.1]> segment_record).
Proof.
  split.
  - apply (proj1 (SegmentFacts.map_to_array_segment_shape libs
                    two_underscores_record "1_2_4" eq_refl)).
    simpl. lia.
  - apply (proj2 (SegmentFacts.map_to_array_segment_shape libs
                    segment_record "1_4" eq_refl)).
    reflexivity.
Defined.

Lemma negative_labels_count_from_the_end_witness :
  Forall2 (fun f row =>
             - number_of_labels collator5 ≤ labels f < number_of_labels collator5 ∧
             is_one_hot (number_of_labels collator5)
               (labels f `mod` number_of_labels collator5) row)
          [last_class_feature] (batch_labels last_class_batch).
Proof.
  apply LabelFacts.negative_labels_count_from_the_end.
  vm_compute. reflexivity.
Defined.

Lemma compute_metrics_decodes_collated_labels_witness :
  compute_metrics plain_scoring [0; 1; 2; 3; 4] ["NLD"; "ESP"; "ITA"; "CHE"; "RUS"]
    {| predictions := [[0; 0; 1 # 4; 0; 1 # 2]%Q];
       label_ids := batch_labels last_class_batch |}
  = preds ← comprehension (argmax Qltb) [[0; 0; 1 # 4; 0; 1 # 2]%Q];
    score plain_scoring [0; 1; 2; 3; 4] ["NLD"; "ESP"; "ITA"; "CHE"; "RUS"]
      ((fun f => Z.to_nat (labels f `mod` number_of_labels collator5))
         <$> [last_class_feature])
      preds.
Proof.
  apply LabelFacts.compute_metrics_decodes_collated_labels.
  vm_compute. reflexivity.
Defined.

Lemma speech_file_to_array_fn_frame_witness :
  (∃ speech, wav_row !! "speech" = Some (PyArr speech)) ∧
  wav_row !! "sampling_rate" = Some (PyInt 16000) ∧
  is_Some (wav_record !! "label") ∧
  wav_row !! "parent" = wav_record !! "label" ∧
  ∀ key, key ≠ "speech" → key ≠ "sampling_rate" → key ≠ "parent" →
         wav_row !! key = wav_record !! key.
Proof.
  apply (PipelineFacts.speech_file_to_array_fn_frame libs 10).
  vm_compute. reflexivity.
Defined.

Lemma prepare_dataset_after_speech_file_to_array_fn_witness :
  prepare_dataset (fun _ _ => Ok [six_frames]) (columns_of [wav_row]) =
    Passed (input_values ← Ok [six_frames];
            Ok {| kept := columns_of [wav_row];
                  col_input_values := input_values;
                  col_labels := (fun record => record !!! "label") <$> [wav_record] |}).
Proof.
  apply (PipelineFacts.prepare_dataset_after_speech_file_to_array_fn libs 10
           (fun _ _ => Ok [six_frames]) [wav_record] [wav_row]).
  - discriminate.
  - constructor; [vm_compute; reflexivity | constructor].
Defined.

Lemma stale_output_dir_is_refused_witness :
  main world_with_stale_output = Raise ValueError.
Proof.
  apply (proj1 (MainEdgeFacts.stale_output_dir_is_refused world_with_stale_output
                  some_args.1.1 some_args.1.2 some_args.2 ["notes.txt"]
                  eq_refl eq_refl)).
  repeat split. discriminate.
Defined.

Lemma main_trains_then_evaluates_witness :
  (∃ c, Train c ∈
     [Train (Some "out/checkpoint-500"); SaveModel; LogMetrics "train";
      SaveMetrics "train"; SaveState;
      Evaluate; LogMetrics "eval"; SaveMetrics "eval"]) ↔
  do_train some_args.2 = true.
Proof.
  apply (MainEdgeFacts.main_trains_then_evaluates world_with_checkpoint
           some_args.1.1 some_args.1.2 some_args.2); reflexivity.
Defined.

Lemma runner_parts_fit_together_witness :
  ∃ r, DidMain.script working_machine four_gpus (config_with "adam" "nllLoss") = Ok r ∧
    (∃ step_size gamma,
       DidMain.read (config_with "adam" "nllLoss") "scheduler" "step_size"
         = Ok step_size ∧
       DidMain.read (config_with "adam" "nllLoss") "scheduler" "gamma" = Ok gamma ∧
       DidMain.runner_scheduler r =
         DidMain.StepLR (DidMain.runner_optimizer r) step_size gamma) ∧
    (∃ lr weight_decay,
       DidMain.runner_optimizer r = DidMain.Adam (DidMain.runner_model r) lr weight_decay) ∧
    DidMain.read_entry (config_with "adam" "nllLoss") "loss_functions" "nllLoss" "output"
      = Ok (DidMain.runner_output_for_loss r) ∧
    DidMain.runner_device r = "cuda".
Proof.
  eexists. split; [vm_compute; reflexivity|].
  apply (DidMainEdgeFacts.runner_parts_fit_together working_machine four_gpus
           (config_with "adam" "nllLoss")).
  reflexivity.
Defined.

Lemma exit_message_names_the_unsupported_witness :
  DidMain.script working_machine four_gpus (config_with "sgd" "mse") =
    Raise (SystemExit (ExitMsg "you must specify optimizer for sgd")) ∧
  DidMain.script working_machine four_gpus (config_with "adam" "mse") =
    Raise (SystemExit (ExitMsg "you must specify loss_function for mse")).
Proof.
  split.
  - edestruct (DidMainEdgeFacts.exit_message_names_the_unsupported
                 working_machine four_gpus (config_with "sgd" "mse")) as [Hoptimizer _].
    + vm_compute. reflexivity.
    + apply (Hoptimizer "sgd"); [vm_compute; reflexivity | discriminate].
  - edestruct (DidMainEdgeFacts.exit_message_names_the_unsupported
                 working_machine four_gpus (config_with "adam" "mse")) as [_ Hloss].
    + vm_compute. reflexivity.
    + eapply (Hloss _ _ "mse").
      * vm_compute. reflexivity.
      * vm_compute. reflexivity.
      * vm_compute. reflexivity.
      * discriminate.
Defined.

End OnInputs.
